(** * convo-frontend: the notification queue and the chat-room view

    A shallow embedding of
    - [src/components/ui/toast.tsx]  (the [useToast] hook: [addToast], [removeToast]),
    - [src/components/ui/error.tsx]  ([ErrorPage] and its retry button),
    - the chat-room page component [ChatRoom] ([fetchRoomInfo], [fetchMessages],
      the room effect, [handleSend], [handleCopyRoomId], [handleRetry], the
      render function),
    - the room-list page [ChatsPage] ([fetchRooms], [handleCreateRoom],
      [handleJoinRoom]),
    - the validators of the registration and login forms ([validateForm],
      [getPasswordStrength]) with the regular expressions they test,
    followed by the properties of the specification stated over it and by
    further properties read off the code.

    React state is modelled by explicit state passing: a [setX(v)] call is a
    record update, a functional update [setX(prev => f prev)] is [f] applied to
    the current value, and the code that runs after an [await] is a function of
    the awaited outcome and of the state at the moment the promise settles.
    JavaScript strings are [string]s, read as sequences of code units below 256. *)

From Stdlib Require Import ZArith String Ascii List DecimalString DecimalZ.
From stdpp Require Import base decidable option list sorting strings gmap.

Local Open Scope string_scope.
Local Open Scope Z_scope.
Local Open Scope list_scope.

(** ** JavaScript helpers *)

Module JS.

(** [Number.prototype.toString()] on an integer: decimal digits, a leading
    minus sign for negative numbers. *)
Definition toString (n : Z) : string := NilZero.string_of_int (Z.to_int n).

(** ECMAScript [WhiteSpace] and [LineTerminator] code units below 256:
    TAB, LF, VT, FF, CR, SPACE and NBSP. *)
Definition isWhiteSpace (c : ascii) : bool :=
  let n := N_of_ascii c in
  ((9 <=? n) && (n <=? 13) || (n =? 32) || (n =? 160))%N.

Fixpoint trimStart (s : string) : string :=
  match s with
  | EmptyString => EmptyString
  | String c rest => if isWhiteSpace c then trimStart rest else s
  end.

Definition trimEnd (s : string) : string := String.rev (trimStart (String.rev s)).

(** [String.prototype.trim()]. *)
Definition trim (s : string) : string := trimEnd (trimStart s).

(** Truthiness of a string value: only the empty string is falsy. *)
Definition truthy (s : string) : bool := negb (String.eqb s "").

(** Truthiness of a value of type [string | undefined] (or [string | null]). *)
Definition truthyOpt (s : option string) : bool :=
  match s with
  | None => false
  | Some v => truthy v
  end.

(** What a [catch (err)] clause receives: an [Error] instance carrying a
    message, or any other thrown value. *)
Inductive Thrown :=
| ErrorObject (message : string)
| OtherValue.

(** [err instanceof Error ? err.message : fallback]. *)
Definition messageOr (fallback : string) (err : Thrown) : string :=
  match err with
  | ErrorObject m => m
  | OtherValue => fallback
  end.

End JS.

(** ** toast.tsx: the [useToast] hook *)

Module Toast.

Inductive ToastType := success | error | warning | info.

(** An element of the [toasts] state array. *)
Record Entry := {
  id : string;
  type : ToastType;
  title : option string;
  description : option string;
}.

(** [Omit<(typeof toasts)[0], "id">]: what a caller hands to [addToast]. *)
Record Input := {
  input_type : ToastType;
  input_title : option string;
  input_description : option string;
}.

(** A pending [setTimeout] registered by [addToast]. Its callback is
    [() => setToasts(prev => prev.filter(t => t.id !== id))], a closure that
    is determined by the captured [id]; [fireAt] is the registration time
    plus the delay. *)
Record Timer := {
  fireAt : Z;
  target : string;
}.

(** The hook's state array together with the timers of the event loop. *)
Record Queue := {
  toasts : list Entry;
  timers : list Timer;
}.

#[global] Instance ToastType_eq_dec : EqDecision ToastType.
Proof. solve_decision. Defined.
#[global] Instance Entry_eq_dec : EqDecision Entry.
Proof. solve_decision. Defined.
#[global] Instance Timer_eq_dec : EqDecision Timer.
Proof. solve_decision. Defined.

Definition empty : Queue := {| toasts := []; timers := [] |}.

(** The time-to-live passed to [setTimeout]. *)
Definition TTL : Z := 5000.

(** [{ ...toast, id }]. *)
Definition withId (toast : Input) (i : string) : Entry :=
  {| id := i;
     type := input_type toast;
     title := input_title toast;
     description := input_description toast |}.

(** [prev.filter((t) => t.id !== id)]: the updater shared by [removeToast]
    and by the timer callback. *)
Definition withoutId (i : string) (prev : list Entry) : list Entry :=
  filter (λ t, id t ≠ i) prev.

(** [addToast(toast)], called when [Date.now()] returns [now]. *)
Definition addToast (now : Z) (toast : Input) (q : Queue) : Queue :=
  let i := JS.toString now in
  {| toasts := toasts q ++ [withId toast i];
     timers := timers q ++ [{| fireAt := now + TTL; target := i |}] |}.

(** [removeToast(id)]: the manual dismissal. It leaves the timers alone
    (the hook never calls [clearTimeout]). *)
Definition removeToast (i : string) (q : Queue) : Queue :=
  {| toasts := withoutId i (toasts q); timers := timers q |}.

(** Removes the first occurrence of a timer from the pending list. *)
Fixpoint unschedule (tm : Timer) (l : list Timer) : list Timer :=
  match l with
  | [] => []
  | x :: rest => if decide (x = tm) then rest else x :: unschedule tm rest
  end.

(** The event loop runs the callback of the pending timer [tm]. *)
Definition fireTimer (tm : Timer) (q : Queue) : Queue :=
  {| toasts := withoutId (target tm) (toasts q);
     timers := unschedule tm (timers q) |}.

(** What can happen to the queue: a caller adds, a caller dismisses, or the
    event loop, at time [now], runs a timer. A timer runs only if it is
    pending and its delay has elapsed. *)
Inductive Event :=
| Add (now : Z) (toast : Input)
| Remove (i : string)
| Fire (now : Z) (tm : Timer).

Definition due (now : Z) (tm : Timer) (q : Queue) : bool :=
  bool_decide (tm ∈ timers q) && (fireAt tm <=? now).

Definition step (e : Event) (q : Queue) : Queue :=
  match e with
  | Add now toast => addToast now toast q
  | Remove i => removeToast i q
  | Fire now tm => if due now tm q then fireTimer tm q else q
  end.

Definition run (es : list Event) (q : Queue) : Queue :=
  fold_left (λ acc e, step e acc) es q.

(** The ids on display, in display order. *)
Definition ids (q : Queue) : list string := id <$> toasts q.

End Toast.

(** ** error.tsx: [ErrorPage] *)

Module ErrorUI.

(** The callbacks the chat-room page passes to [ErrorPage]. *)
Inductive Handler := HandleRetry | HandleGoBack.

(** [ErrorPageProps]; an absent optional prop is [None]. *)
Record ErrorPageProps := {
  title : option string;
  description : option string;
  onRetry : option Handler;
  onGoHome : option Handler;
  showRetry : option bool;
  showGoHome : option bool;
}.

(** [showRetry && onRetry], with the default [showRetry = true]: whether
    [ErrorCard] renders the "Try Again" button. *)
Definition retryButton (p : ErrorPageProps) : option Handler :=
  if default true (showRetry p) then onRetry p else None.

(** [showGoHome && onGoHome], with the default [showGoHome = true]. *)
Definition goHomeButton (p : ErrorPageProps) : option Handler :=
  if default true (showGoHome p) then onGoHome p else None.

(** The heading shown, with the default [title = "Something went wrong"]. *)
Definition heading (p : ErrorPageProps) : string :=
  default "Something went wrong" (title p).

End ErrorUI.

(** ** The chat-room page: [ChatRoom] *)

Module Chat.

Record User := {
  user_id : string;
  username : string;
}.

Record Message := {
  id : string;
  content : string;
  createdAt : string;
  user : User;
}.

Record RoomInfo := {
  room_id : string;
  name : string;
  memberCount : Z;
}.

#[global] Instance User_eq_dec : EqDecision User.
Proof. solve_decision. Defined.
#[global] Instance Message_eq_dec : EqDecision Message.
Proof. solve_decision. Defined.

(** *** The HTTP boundary *)

(** What [await res.json()] yields in [fetchMessages]: an array, or any
    other JSON value ([Array.isArray(data)] tells them apart). *)
Inductive MessagesData :=
| IsArray (data : list Message)
| NotArray.

(** A [Response]: its status, and what [res.json()] settles to (it rejects
    when the body is not JSON). *)
Record Response (A : Type) := {
  status : Z;
  json : JS.Thrown + A;
}.
Arguments status {A} _.
Arguments json {A} _.

(** [res.ok]: the status is in the range 200-299. *)
Definition ok {A} (res : Response A) : bool :=
  (200 <=? status res) && (status res <=? 299).

(** What [await fetch(...)] settles to. *)
Inductive Fetched (A : Type) :=
| Rejects (err : JS.Thrown)
| Resolves (res : Response A).
Arguments Rejects {A} _.
Arguments Resolves {A} _.

(** *** Component state and its surroundings *)

(** The [useState] cells of the component, the [useToast] queue it owns,
    and the two browser objects its callbacks write to: [localStorage] and
    the router (the list of [router.push] targets, oldest first). The value
    of [roomId] is [None] for [undefined]. *)
Record State := {
  roomId : option string;
  message : string;
  messages : list Message;
  roomInfo : option RoomInfo;
  isLoading : bool;
  isLoadingMessages : bool;
  error : string;
  isSendingMessage : bool;
  copiedRoomId : bool;
  toastQueue : Toast.Queue;
  localStorage : gmap string string;
  pushed : list string;
}.

Definition setMessage (v : string) (st : State) : State :=
  {| roomId := roomId st; message := v; messages := messages st;
     roomInfo := roomInfo st; isLoading := isLoading st;
     isLoadingMessages := isLoadingMessages st; error := error st;
     isSendingMessage := isSendingMessage st; copiedRoomId := copiedRoomId st;
     toastQueue := toastQueue st; localStorage := localStorage st;
     pushed := pushed st |}.

Definition setMessages (v : list Message) (st : State) : State :=
  {| roomId := roomId st; message := message st; messages := v;
     roomInfo := roomInfo st; isLoading := isLoading st;
     isLoadingMessages := isLoadingMessages st; error := error st;
     isSendingMessage := isSendingMessage st; copiedRoomId := copiedRoomId st;
     toastQueue := toastQueue st; localStorage := localStorage st;
     pushed := pushed st |}.

Definition setRoomInfo (v : option RoomInfo) (st : State) : State :=
  {| roomId := roomId st; message := message st; messages := messages st;
     roomInfo := v; isLoading := isLoading st;
     isLoadingMessages := isLoadingMessages st; error := error st;
     isSendingMessage := isSendingMessage st; copiedRoomId := copiedRoomId st;
     toastQueue := toastQueue st; localStorage := localStorage st;
     pushed := pushed st |}.

Definition setIsLoading (v : bool) (st : State) : State :=
  {| roomId := roomId st; message := message st; messages := messages st;
     roomInfo := roomInfo st; isLoading := v;
     isLoadingMessages := isLoadingMessages st; error := error st;
     isSendingMessage := isSendingMessage st; copiedRoomId := copiedRoomId st;
     toastQueue := toastQueue st; localStorage := localStorage st;
     pushed := pushed st |}.

Definition setIsLoadingMessages (v : bool) (st : State) : State :=
  {| roomId := roomId st; message := message st; messages := messages st;
     roomInfo := roomInfo st; isLoading := isLoading st;
     isLoadingMessages := v; error := error st;
     isSendingMessage := isSendingMessage st; copiedRoomId := copiedRoomId st;
     toastQueue := toastQueue st; localStorage := localStorage st;
     pushed := pushed st |}.

Definition setError (v : string) (st : State) : State :=
  {| roomId := roomId st; message := message st; messages := messages st;
     roomInfo := roomInfo st; isLoading := isLoading st;
     isLoadingMessages := isLoadingMessages st; error := v;
     isSendingMessage := isSendingMessage st; copiedRoomId := copiedRoomId st;
     toastQueue := toastQueue st; localStorage := localStorage st;
     pushed := pushed st |}.

Definition setIsSendingMessage (v : bool) (st : State) : State :=
  {| roomId := roomId st; message := message st; messages := messages st;
     roomInfo := roomInfo st; isLoading := isLoading st;
     isLoadingMessages := isLoadingMessages st; error := error st;
     isSendingMessage := v; copiedRoomId := copiedRoomId st;
     toastQueue := toastQueue st; localStorage := localStorage st;
     pushed := pushed st |}.

(** [localStorage.removeItem(key)]. *)
Definition removeItem (key : string) (st : State) : State :=
  {| roomId := roomId st; message := message st; messages := messages st;
     roomInfo := roomInfo st; isLoading := isLoading st;
     isLoadingMessages := isLoadingMessages st; error := error st;
     isSendingMessage := isSendingMessage st; copiedRoomId := copiedRoomId st;
     toastQueue := toastQueue st; localStorage := delete key (localStorage st);
     pushed := pushed st |}.

(** [localStorage.getItem(key)]; [None] is [null]. *)
Definition getItem (key : string) (st : State) : option string :=
  localStorage st !! key.

(** [router.push(path)]. *)
Definition routerPush (path : string) (st : State) : State :=
  {| roomId := roomId st; message := message st; messages := messages st;
     roomInfo := roomInfo st; isLoading := isLoading st;
     isLoadingMessages := isLoadingMessages st; error := error st;
     isSendingMessage := isSendingMessage st; copiedRoomId := copiedRoomId st;
     toastQueue := toastQueue st; localStorage := localStorage st;
     pushed := pushed st ++ [path] |}.

(** The [useState] initial values, for a given route parameter and browser
    storage. *)
Definition initial (r : option string) (storage : gmap string string) : State :=
  {| roomId := r; message := ""; messages := []; roomInfo := None;
     isLoading := true; isLoadingMessages := true; error := "";
     isSendingMessage := false; copiedRoomId := false;
     toastQueue := Toast.empty; localStorage := storage; pushed := [] |}.

(** *** [fetchRoomInfo] and [fetchMessages]

    Neither callback writes anything before its [fetch] settles, and on every
    path all its writes happen in one synchronous run after the last [await].
    Each is therefore the function from the settled outcome to the state
    update it performs. The [roomId] a callback was created for occurs only in
    the request URL. *)

Definition fetchRoomInfo (outcome : Fetched (option RoomInfo)) (st : State) : State :=
  match outcome with
  | Rejects err =>
      setError (JS.messageOr "Failed to load room information" err) st
  | Resolves res =>
      if status res =? 401 then
        routerPush "/auth/login" (removeItem "token" st)
      else if status res =? 404 then
        setError "Room not found" st
      else if status res =? 403 then
        setError "You don't have access to this room" st
      else if negb (ok res) then
        (* throw new Error(...), caught below in the same function *)
        setError "Failed to fetch room information" st
      else
        match json res with
        | inl err => setError (JS.messageOr "Failed to load room information" err) st
        | inr data => setRoomInfo data st
        end
  end.

(** The [try]/[catch] part of [fetchMessages]. *)
Definition fetchMessages_try (outcome : Fetched MessagesData) (st : State) : State :=
  match outcome with
  | Rejects err =>
      setError (JS.messageOr "Failed to load messages" err) st
  | Resolves res =>
      if status res =? 401 then
        routerPush "/auth/login" (removeItem "token" st)
      else if status res =? 404 then
        setError "Room not found" st
      else if status res =? 403 then
        setError "You don't have access to this room" st
      else if negb (ok res) then
        setError "Failed to fetch messages" st
      else
        match json res with
        | inl err => setError (JS.messageOr "Failed to load messages" err) st
        | inr (IsArray data) => setMessages data st
        | inr NotArray => setMessages [] st
        end
  end.

(** [fetchMessages]: the [finally] clause runs on every path, the early
    [return]s included. *)
Definition fetchMessages (outcome : Fetched MessagesData) (st : State) : State :=
  setIsLoadingMessages false (fetchMessages_try outcome st).

(** A settled request of either kind, the status of its response ([None]
    when [fetch] itself rejected), and the continuation it resumes. *)
Inductive Settled :=
| RoomInfoSettled (outcome : Fetched (option RoomInfo))
| MessagesSettled (outcome : Fetched MessagesData).

Definition fetchedStatus {A} (outcome : Fetched A) : option Z :=
  match outcome with
  | Rejects _ => None
  | Resolves res => Some (status res)
  end.

Definition responseStatus (s : Settled) : option Z :=
  match s with
  | RoomInfoSettled outcome => fetchedStatus outcome
  | MessagesSettled outcome => fetchedStatus outcome
  end.

Definition resume (s : Settled) (st : State) : State :=
  match s with
  | RoomInfoSettled outcome => fetchRoomInfo outcome st
  | MessagesSettled outcome => fetchMessages outcome st
  end.

(** *** The room effect, [loadRoomData] and [handleRetry] *)

(** One call of [loadRoomData] whose [Promise.all] has not resolved yet:
    the room its two callbacks were created for, and which of the two
    requests are still in flight. *)
Record Load := {
  forRoom : string;
  infoPending : bool;
  messagesPending : bool;
}.

(** The mounted component together with its requests in flight. *)
Record Page := {
  component : State;
  loads : list Load;
}.

(** The room segment of the request URL, [`.../chat/room/${roomId}`]. *)
Definition urlRoom (r : option string) : string := default "undefined" r.

(** [loadRoomData()]: starts both requests. *)
Definition loadRoomData (p : Page) : Page :=
  {| component := component p;
     loads := loads p ++
       [{| forRoom := urlRoom (roomId (component p));
           infoPending := true; messagesPending := true |}] |}.

(** The body of [useEffect(..., [roomId, router, fetchRoomInfo, fetchMessages])]. *)
Definition roomEffect (p : Page) : Page :=
  let st := component p in
  if negb (JS.truthyOpt (roomId st)) then
    {| component := setIsLoading false (setError "Invalid room ID" st);
       loads := loads p |}
  else if negb (JS.truthyOpt (getItem "token" st)) then
    {| component := routerPush "/auth/login" st; loads := loads p |}
  else loadRoomData p.

(** Mounting the page: initial state, then the effect. *)
Definition mount (r : option string) (storage : gmap string string) : Page :=
  roomEffect {| component := initial r storage; loads := [] |}.

(** [handleRetry]. *)
Definition handleRetry (p : Page) : Page :=
  loadRoomData
    {| component :=
         setError "" (setIsLoadingMessages true (setIsLoading true (component p)));
       loads := loads p |}.

(** The [fetchRoomInfo] request of the oldest load for [room] settles: the
    callback's continuation runs, and when it was the last of the pair,
    [Promise.all] resolves and [setIsLoading(false)] follows. *)
Fixpoint settleRoomInfo (room : string) (outcome : Fetched (option RoomInfo))
    (ls : list Load) (st : State) : State * list Load :=
  match ls with
  | [] => (st, [])
  | l :: rest =>
      if bool_decide (forRoom l = room) && infoPending l then
        let st1 := fetchRoomInfo outcome st in
        if messagesPending l then
          (st1, {| forRoom := forRoom l; infoPending := false;
                   messagesPending := true |} :: rest)
        else (setIsLoading false st1, rest)
      else
        let '(st', rest') := settleRoomInfo room outcome rest st in
        (st', l :: rest')
  end.

(** The same for the [fetchMessages] request. *)
Fixpoint settleMessages (room : string) (outcome : Fetched MessagesData)
    (ls : list Load) (st : State) : State * list Load :=
  match ls with
  | [] => (st, [])
  | l :: rest =>
      if bool_decide (forRoom l = room) && messagesPending l then
        let st1 := fetchMessages outcome st in
        if infoPending l then
          (st1, {| forRoom := forRoom l; infoPending := true;
                   messagesPending := false |} :: rest)
        else (setIsLoading false st1, rest)
      else
        let '(st', rest') := settleMessages room outcome rest st in
        (st', l :: rest')
  end.

(** What happens to a mounted page: one of its requests settles, or the
    user retries. (A change of room is not among them: it replaces the
    page, see [Tab] below.) *)
Inductive Event :=
| RoomInfoSettles (room : string) (outcome : Fetched (option RoomInfo))
| MessagesSettle (room : string) (outcome : Fetched MessagesData)
| Retry.

Definition step (e : Event) (p : Page) : Page :=
  match e with
  | RoomInfoSettles room outcome =>
      let '(st, ls) := settleRoomInfo room outcome (loads p) (component p) in
      {| component := st; loads := ls |}
  | MessagesSettle room outcome =>
      let '(st, ls) := settleMessages room outcome (loads p) (component p) in
      {| component := st; loads := ls |}
  | Retry => handleRetry p
  end.

Definition run (es : list Event) (p : Page) : Page :=
  fold_left (λ acc e, step e acc) es p.

(** Whether a [fetchMessages] request for [room] is in flight. *)
Definition messagesInFlight (room : string) (p : Page) : bool :=
  existsb (λ l, bool_decide (forRoom l = room) && messagesPending l) (loads p).

(** Whether a [fetchRoomInfo] request for [room] is in flight. *)
Definition roomInfoInFlight (room : string) (p : Page) : bool :=
  existsb (λ l, bool_decide (forRoom l = room) && infoPending l) (loads p).

(** *** Changing rooms

    [ChatRoom] is the page of the route segment [[chatRoomId]]. The router
    keys that segment by the value of the parameter, so going from one room
    to another unmounts the page and mounts a new one, whose [useState]
    cells start from their initial values and whose effect runs afresh.
    The callbacks of the page that went away, the continuations of its
    requests in flight among them, close over the setters of that page:
    what they set is never rendered again. [localStorage] and the router
    belong to the browser and are shared by all pages. *)

(** The cells of [st] around the browser objects of [env]. *)
Definition inBrowserOf (env st : State) : State :=
  {| roomId := roomId st; message := message st; messages := messages st;
     roomInfo := roomInfo st; isLoading := isLoading st;
     isLoadingMessages := isLoadingMessages st; error := error st;
     isSendingMessage := isSendingMessage st; copiedRoomId := copiedRoomId st;
     toastQueue := toastQueue st; localStorage := localStorage env;
     pushed := pushed env |}.

(** The mounted page, and the pages unmounted since the tab was opened
    (their requests may still be in flight), oldest first. *)
Record Tab := {
  mounted : Page;
  unmounted : list Page;
}.

Definition openTab (r : option string) (storage : gmap string string) : Tab :=
  {| mounted := mount r storage; unmounted := [] |}.

(** The user goes to another room, something happens to the mounted page,
    or a request of the [k]-th unmounted page settles. *)
Inductive TabEvent :=
| Navigate (r : option string)
| OnMounted (e : Event)
| OnUnmounted (k : nat) (e : Event).

(** An event of an unmounted page: its continuation runs on the cells of
    that page, in the browser as it is now. Nobody can press its retry
    button. *)
Definition stepUnmounted (e : Event) (now : State) (old : Page) : Page :=
  match e with
  | Retry => old
  | _ => step e {| component := inBrowserOf now (component old); loads := loads old |}
  end.

Definition tabStep (ev : TabEvent) (t : Tab) : Tab :=
  match ev with
  | Navigate r =>
      if decide (r = roomId (component (mounted t))) then t
      else
        {| mounted :=
             roomEffect
               {| component := inBrowserOf (component (mounted t)) (initial r ∅);
                  loads := [] |};
           unmounted := unmounted t ++ [mounted t] |}
  | OnMounted e => {| mounted := step e (mounted t); unmounted := unmounted t |}
  | OnUnmounted k e =>
      match unmounted t !! k with
      | None => t
      | Some old =>
          let old' := stepUnmounted e (component (mounted t)) old in
          {| mounted :=
               {| component := inBrowserOf (component old') (component (mounted t));
                  loads := loads (mounted t) |};
             unmounted := <[k:=old']> (unmounted t) |}
      end
  end.

Definition tabRun (evs : list TabEvent) (t : Tab) : Tab :=
  fold_left (λ acc ev, tabStep ev acc) evs t.


(** *** [handleSend] *)

Section Send.

(** [socketSendMessage] comes from the [useSocket] hook, which is not part
    of the sources at hand: it is taken as a parameter, a function of the
    content and of the hook's own state that may throw. *)
Context {Socket : Type}.
Variable socketSendMessage : string → Socket → option JS.Thrown * Socket.

Definition handleSend (st : State) (sk : Socket) : State * Socket :=
  if negb (JS.truthy (JS.trim (message st)))
     || negb (JS.truthyOpt (roomId st))
     || isSendingMessage st
  then (st, sk)
  else
    let st1 := setIsSendingMessage true st in
    match socketSendMessage (message st) sk with
    | (None, sk') =>
        (setIsSendingMessage false (setMessage "" st1), sk')
    | (Some err, sk') =>
        (setIsSendingMessage false
           (setError (JS.messageOr "Failed to send message" err) st1), sk')
    end.

End Send.

(** *** Rendering *)

(** The scrolling pane of the chat view. [MessageList] carries the rendered
    entries in order; each is keyed by its [id]. *)
Inductive MessagesPane :=
| LoadingMessages
| NoMessagesYet
| MessageList (rows : list Message).

Record ChatView := {
  shownToasts : list Toast.Entry;
  heading : string;
  memberLine : option (Z * string);
  pane : MessagesPane;
  inputValue : string;
  inputDisabled : bool;
  sendDisabled : bool;
}.

Inductive View :=
| ErrorPageView (props : ErrorUI.ErrorPageProps)
| LoadingPageView
| ChatRoomView (v : ChatView).

(** [[...messages, ...socketMessages]]: the sequence the chat view maps
    over; [socketMessages] is the array returned by [useSocket]. *)
Definition mergedView (messages socketMessages : list Message) : list Message :=
  messages ++ socketMessages.

(** [roomInfo?.name || `Room: ${roomId}`]. *)
Definition roomHeading (st : State) : string :=
  match roomInfo st with
  | Some info =>
      if JS.truthy (name info) then name info
      else "Room: " +:+ urlRoom (roomId st)
  | None => "Room: " +:+ urlRoom (roomId st)
  end.

(** The line under the heading: the member count and the noun that
    follows it, [memberCount === 1 ? "member" : "members"]. *)
Definition roomMemberLine (st : State) : option (Z * string) :=
  match roomInfo st with
  | Some info =>
      Some (memberCount info, if memberCount info =? 1 then "member" else "members")
  | None => None
  end.

(** The component's [return] statements, in order. *)
Definition render (st : State) (socketMessages : list Message) : View :=
  if negb (JS.truthyOpt (roomId st)) then
    ErrorPageView
      {| ErrorUI.title := Some "Invalid Room";
         ErrorUI.description := Some "The room ID provided is not valid";
         ErrorUI.onRetry := None;
         ErrorUI.onGoHome := Some ErrorUI.HandleGoBack;
         ErrorUI.showRetry := Some false;
         ErrorUI.showGoHome := None |}
  else if isLoading st then LoadingPageView
  else if JS.truthy (error st) then
    ErrorPageView
      {| ErrorUI.title := Some "Failed to load chat room";
         ErrorUI.description := Some (error st);
         ErrorUI.onRetry := Some ErrorUI.HandleRetry;
         ErrorUI.onGoHome := Some ErrorUI.HandleGoBack;
         ErrorUI.showRetry := None;
         ErrorUI.showGoHome := None |}
  else
    ChatRoomView
      {| shownToasts := Toast.toasts (toastQueue st);
         heading := roomHeading st;
         memberLine := roomMemberLine st;
         pane :=
           if isLoadingMessages st then LoadingMessages
           else if (Z.of_nat (length (mergedView (messages st) socketMessages)) =? 0)
           then NoMessagesYet
           else MessageList (mergedView (messages st) socketMessages);
         inputValue := message st;
         inputDisabled := isSendingMessage st;
         sendDisabled :=
           isSendingMessage st || negb (JS.truthy (JS.trim (message st))) |}.

(** The message entries a view shows, in order. *)
Definition rendered (v : View) : list Message :=
  match v with
  | ChatRoomView c =>
      match pane c with
      | MessageList rows => rows
      | _ => []
      end
  | _ => []
  end.

(** The React keys of the rendered entries. *)
Definition keys (v : View) : list string := id <$> rendered v.

End Chat.

(** ** The display order of the specification *)

Module Order.

Section DisplayOrder.

(** The instant a [createdAt] string denotes (the page reads it with
    [new Date(msg.createdAt)]); the properties below hold for every such
    reading. *)
Variable instant : string → Z.

(** [a] may stand before [b]: earlier [createdAt], or the same instant and
    an [id] that is not lexically greater. *)
Definition displayLe (a b : Chat.Message) : Prop :=
  instant (Chat.createdAt a) < instant (Chat.createdAt b)
  ∨ (instant (Chat.createdAt a) = instant (Chat.createdAt b)
     ∧ String.leb (Chat.id a) (Chat.id b) = true).

Definition displayLeb (a b : Chat.Message) : bool :=
  (instant (Chat.createdAt a) <? instant (Chat.createdAt b))
  || ((instant (Chat.createdAt a) =? instant (Chat.createdAt b))
      && String.leb (Chat.id a) (Chat.id b)).

(** Every entry may stand before every later entry. *)
Definition displaySorted (l : list Chat.Message) : Prop :=
  StronglySorted displayLe l.

End DisplayOrder.

End Order.

(** ** Sample data *)

Module Scenario.

Import Chat.

Definition alice : User := {| user_id := "u1"; username := "alice" |}.
Definition bob : User := {| user_id := "u2"; username := "bob" |}.

Definition m1 : Message :=
  {| id := "1"; content := "hello"; createdAt := "2024-05-01T10:00:00.000Z";
     user := alice |}.
Definition m2 : Message :=
  {| id := "2"; content := "hi alice"; createdAt := "2024-05-01T10:00:05.000Z";
     user := bob |}.
Definition m3 : Message :=
  {| id := "3"; content := "how are you?"; createdAt := "2024-05-01T10:00:09.000Z";
     user := alice |}.
Definition mB : Message :=
  {| id := "7"; content := "standup at ten"; createdAt := "2024-05-01T09:00:00.000Z";
     user := bob |}.

Definition roomA : RoomInfo := {| room_id := "A"; name := "general"; memberCount := 2 |}.
Definition roomB : RoomInfo := {| room_id := "B"; name := "standup"; memberCount := 1 |}.

Definition storage : gmap string string := {[ "token" := "secret" ]}.

Definition okRoom (info : RoomInfo) : Fetched (option RoomInfo) :=
  Resolves {| status := 200; json := inr (Some info) |}.
Definition okMessages (data : list Message) : Fetched MessagesData :=
  Resolves {| status := 200; json := inr (IsArray data) |}.
Definition statusOnly {A} (code : Z) : Fetched A :=
  Resolves {| status := code; json := inl (JS.ErrorObject "Unexpected end of JSON input") |}.

(** The page of room A after both of its requests succeeded. *)
Definition loaded (history : list Message) : Page :=
  run [RoomInfoSettles "A" (okRoom roomA); MessagesSettle "A" (okMessages history)]
      (mount (Some "A") storage).

(** The tab was opened on room A and taken to room B before room A's
    requests settled; room B's two requests have settled since. *)
Definition switched : Tab :=
  tabRun [Navigate (Some "B");
          OnMounted (RoomInfoSettles "B" (okRoom roomB));
          OnMounted (MessagesSettle "B" (okMessages [mB]))]
         (openTab (Some "A") storage).

(** The instants of the sample timestamps, in milliseconds since the epoch. *)
Definition clock (stamp : string) : Z :=
  if decide (stamp = "2024-05-01T09:00:00.000Z") then 1714554000000
  else if decide (stamp = "2024-05-01T10:00:00.000Z") then 1714557600000
  else if decide (stamp = "2024-05-01T10:00:05.000Z") then 1714557605000
  else if decide (stamp = "2024-05-01T10:00:09.000Z") then 1714557609000
  else 0.

(** A page of room A whose input holds only spaces. *)
Definition blankInput : State := setMessage "   " (component (loaded [m1])).

(** A socket hook that records what it is asked to send. *)
Definition recordingSocket (content : string) (sent : list string)
    : option JS.Thrown * list string :=
  (None, sent ++ [content]).

(** A clock reading at which a notification is created, and the timer
    that [addToast] registers for it. *)
Definition created : Z := 1714557600000.
Definition expiry : Toast.Timer :=
  {| Toast.fireAt := created + 5000; Toast.target := JS.toString created |}.

Definition copied : Toast.Input :=
  {| Toast.input_type := Toast.success;
     Toast.input_title := Some "Room ID copied";
     Toast.input_description := Some "Room ID copied to clipboard" |}.
Definition copyFailed : Toast.Input :=
  {| Toast.input_type := Toast.error;
     Toast.input_title := Some "Failed to copy";
     Toast.input_description := Some "Could not copy room ID to clipboard" |}.

End Scenario.

(** ** The chat-room page: the remaining handlers *)

Module ChatActions.

Import Chat.

Definition setCopiedRoomId (v : bool) (st : State) : State :=
  {| roomId := roomId st; message := message st; messages := messages st;
     roomInfo := roomInfo st; isLoading := isLoading st;
     isLoadingMessages := isLoadingMessages st; error := error st;
     isSendingMessage := isSendingMessage st; copiedRoomId := v;
     toastQueue := toastQueue st; localStorage := localStorage st;
     pushed := pushed st |}.

Definition setToastQueue (v : Toast.Queue) (st : State) : State :=
  {| roomId := roomId st; message := message st; messages := messages st;
     roomInfo := roomInfo st; isLoading := isLoading st;
     isLoadingMessages := isLoadingMessages st; error := error st;
     isSendingMessage := isSendingMessage st;
     copiedRoomId := copiedRoomId st; toastQueue := v;
     localStorage := localStorage st; pushed := pushed st |}.

(** [addToast] and [removeToast] of the page's own [useToast] queue;
    [now] is what [Date.now()] returns during the call. *)
Definition addToast (now : Z) (toast : Toast.Input) (st : State) : State :=
  setToastQueue (Toast.addToast now toast (toastQueue st)) st.

Definition removeToast (i : string) (st : State) : State :=
  setToastQueue (Toast.removeToast i (toastQueue st)) st.

Definition copiedToast : Toast.Input :=
  {| Toast.input_type := Toast.success;
     Toast.input_title := Some "Room ID copied";
     Toast.input_description := Some "Room ID copied to clipboard" |}.

Definition copyFailedToast (err : JS.Thrown) : Toast.Input :=
  {| Toast.input_type := Toast.error;
     Toast.input_title := Some "Failed to copy";
     Toast.input_description :=
       Some (JS.messageOr "Could not copy room ID to clipboard" err) |}.

(** [handleCopyRoomId]. [clipboard] is what
    [await navigator.clipboard.writeText(roomId)] settles to ([None] when
    it resolves). The second component is the delay of the [setTimeout]
    the call registers, if any; its callback is [copiedTimeout]. *)
Definition handleCopyRoomId (clipboard : option JS.Thrown) (now : Z) (st : State)
    : State * option Z :=
  if negb (JS.truthyOpt (roomId st)) then (st, None)
  else
    match clipboard with
    | None => (addToast now copiedToast (setCopiedRoomId true st), Some 2000)
    | Some err => (addToast now (copyFailedToast err) st, None)
    end.

(** [() => setCopiedRoomId(false)]. *)
Definition copiedTimeout (st : State) : State := setCopiedRoomId false st.

(** The label of the copy button. *)
Definition copyButtonLabel (st : State) : string :=
  if copiedRoomId st then "Copied" else "Copy Room ID".

(** [handleGoBack]. *)
Definition handleGoBack (st : State) : State := routerPush "/chats" st.

(** The cells a request continuation never writes. *)
Definition untouchedByFetch (st st' : State) : Prop :=
  roomId st' = roomId st ∧ message st' = message st
  ∧ isLoading st' = isLoading st ∧ isSendingMessage st' = isSendingMessage st
  ∧ copiedRoomId st' = copiedRoomId st ∧ toastQueue st' = toastQueue st.

End ChatActions.

(** Case analysis along the status tests of the two request callbacks. *)
Ltac split_status res :=
  destruct (Chat.status res =? 401) eqn:?;
  [|destruct (Chat.status res =? 404) eqn:?;
    [|destruct (Chat.status res =? 403) eqn:?;
      [|destruct (negb (Chat.ok res)) eqn:?]]].

(** ** The room-list page: [ChatsPage] *)

Module Rooms.

Record ChatRoom := {
  id : string;
  name : string;
  createdAt : string;
  messageCount : Z;
  memberCount : Z;
}.

(** The [useState] cells of the page, its [useToast] queue, [localStorage]
    and the list of [router.push] targets. *)
Record State := {
  rooms : list ChatRoom;
  isLoading : bool;
  error : string;
  roomName : string;
  joinRoomId : string;
  isCreatingRoom : bool;
  isJoiningRoom : bool;
  copiedRoomId : option string;
  toastQueue : Toast.Queue;
  localStorage : gmap string string;
  pushed : list string;
}.

Definition setRooms (v : list ChatRoom) (st : State) : State :=
  {| rooms := v; isLoading := isLoading st; error := error st;
     roomName := roomName st; joinRoomId := joinRoomId st;
     isCreatingRoom := isCreatingRoom st; isJoiningRoom := isJoiningRoom st;
     copiedRoomId := copiedRoomId st; toastQueue := toastQueue st;
     localStorage := localStorage st; pushed := pushed st |}.

Definition setIsLoading (v : bool) (st : State) : State :=
  {| rooms := rooms st; isLoading := v; error := error st;
     roomName := roomName st; joinRoomId := joinRoomId st;
     isCreatingRoom := isCreatingRoom st; isJoiningRoom := isJoiningRoom st;
     copiedRoomId := copiedRoomId st; toastQueue := toastQueue st;
     localStorage := localStorage st; pushed := pushed st |}.

Definition setError (v : string) (st : State) : State :=
  {| rooms := rooms st; isLoading := isLoading st; error := v;
     roomName := roomName st; joinRoomId := joinRoomId st;
     isCreatingRoom := isCreatingRoom st; isJoiningRoom := isJoiningRoom st;
     copiedRoomId := copiedRoomId st; toastQueue := toastQueue st;
     localStorage := localStorage st; pushed := pushed st |}.

Definition setRoomName (v : string) (st : State) : State :=
  {| rooms := rooms st; isLoading := isLoading st; error := error st;
     roomName := v; joinRoomId := joinRoomId st;
     isCreatingRoom := isCreatingRoom st; isJoiningRoom := isJoiningRoom st;
     copiedRoomId := copiedRoomId st; toastQueue := toastQueue st;
     localStorage := localStorage st; pushed := pushed st |}.

Definition setJoinRoomId (v : string) (st : State) : State :=
  {| rooms := rooms st; isLoading := isLoading st; error := error st;
     roomName := roomName st; joinRoomId := v;
     isCreatingRoom := isCreatingRoom st; isJoiningRoom := isJoiningRoom st;
     copiedRoomId := copiedRoomId st; toastQueue := toastQueue st;
     localStorage := localStorage st; pushed := pushed st |}.

Definition setIsCreatingRoom (v : bool) (st : State) : State :=
  {| rooms := rooms st; isLoading := isLoading st; error := error st;
     roomName := roomName st; joinRoomId := joinRoomId st;
     isCreatingRoom := v; isJoiningRoom := isJoiningRoom st;
     copiedRoomId := copiedRoomId st; toastQueue := toastQueue st;
     localStorage := localStorage st; pushed := pushed st |}.

Definition setIsJoiningRoom (v : bool) (st : State) : State :=
  {| rooms := rooms st; isLoading := isLoading st; error := error st;
     roomName := roomName st; joinRoomId := joinRoomId st;
     isCreatingRoom := isCreatingRoom st; isJoiningRoom := v;
     copiedRoomId := copiedRoomId st; toastQueue := toastQueue st;
     localStorage := localStorage st; pushed := pushed st |}.

Definition setCopiedRoomId (v : option string) (st : State) : State :=
  {| rooms := rooms st; isLoading := isLoading st; error := error st;
     roomName := roomName st; joinRoomId := joinRoomId st;
     isCreatingRoom := isCreatingRoom st; isJoiningRoom := isJoiningRoom st;
     copiedRoomId := v; toastQueue := toastQueue st;
     localStorage := localStorage st; pushed := pushed st |}.

Definition setToastQueue (v : Toast.Queue) (st : State) : State :=
  {| rooms := rooms st; isLoading := isLoading st; error := error st;
     roomName := roomName st; joinRoomId := joinRoomId st;
     isCreatingRoom := isCreatingRoom st; isJoiningRoom := isJoiningRoom st;
     copiedRoomId := copiedRoomId st; toastQueue := v;
     localStorage := localStorage st; pushed := pushed st |}.

(** [localStorage.removeItem(key)]. *)
Definition removeItem (key : string) (st : State) : State :=
  {| rooms := rooms st; isLoading := isLoading st; error := error st;
     roomName := roomName st; joinRoomId := joinRoomId st;
     isCreatingRoom := isCreatingRoom st; isJoiningRoom := isJoiningRoom st;
     copiedRoomId := copiedRoomId st; toastQueue := toastQueue st;
     localStorage := delete key (localStorage st); pushed := pushed st |}.

(** [router.push(path)]. *)
Definition routerPush (path : string) (st : State) : State :=
  {| rooms := rooms st; isLoading := isLoading st; error := error st;
     roomName := roomName st; joinRoomId := joinRoomId st;
     isCreatingRoom := isCreatingRoom st; isJoiningRoom := isJoiningRoom st;
     copiedRoomId := copiedRoomId st; toastQueue := toastQueue st;
     localStorage := localStorage st; pushed := pushed st ++ [path] |}.

Definition getItem (key : string) (st : State) : option string :=
  localStorage st !! key.

Definition addToast (now : Z) (toast : Toast.Input) (st : State) : State :=
  setToastQueue (Toast.addToast now toast (toastQueue st)) st.

Definition initial (storage : gmap string string) : State :=
  {| rooms := []; isLoading := true; error := ""; roomName := "";
     joinRoomId := ""; isCreatingRoom := false; isJoiningRoom := false;
     copiedRoomId := None; toastQueue := Toast.empty;
     localStorage := storage; pushed := [] |}.

Definition toast (kind : Toast.ToastType) (title description : string) : Toast.Input :=
  {| Toast.input_type := kind;
     Toast.input_title := Some title;
     Toast.input_description := Some description |}.

(** *** [fetchRooms] *)

(** The part of [fetchRooms] that runs before its [fetch]: without a token
    it pushes the login route and returns (through [finally]); the result
    is [None] when the request is sent instead. *)
Definition fetchRooms_begin (st : State) : option State :=
  if negb (JS.truthyOpt (getItem "token" st)) then
    Some (setIsLoading false (routerPush "/auth/login" st))
  else None.

(** The part that runs once the request has settled. *)
Definition fetchRooms_settle (outcome : Chat.Fetched (list ChatRoom)) (st : State)
    : State :=
  setIsLoading false
    match outcome with
    | Chat.Rejects err => setError (JS.messageOr "An error occurred" err) st
    | Chat.Resolves res =>
        if Chat.status res =? 401 then
          routerPush "/auth/login" (removeItem "token" st)
        else if negb (Chat.ok res) then
          setError "Failed to fetch rooms" st
        else
          match Chat.json res with
          | inl err => setError (JS.messageOr "An error occurred" err) st
          | inr data => setError "" (setRooms data st)
          end
    end.

(** [fetchRooms()] from call to completion, when nothing else happens in
    between. *)
Definition fetchRooms (outcome : Chat.Fetched (list ChatRoom)) (st : State) : State :=
  match fetchRooms_begin st with
  | Some done => done
  | None => fetchRooms_settle outcome st
  end.

(** The mount effect: its own token check, then [fetchRooms()]. *)
Definition mount (outcome : Chat.Fetched (list ChatRoom))
    (storage : gmap string string) : State :=
  if negb (JS.truthyOpt (storage !! "token")) then
    routerPush "/auth/login" (initial storage)
  else fetchRooms outcome (initial storage).

(** [handleRetry]. *)
Definition handleRetry (outcome : Chat.Fetched (list ChatRoom)) (st : State) : State :=
  fetchRooms outcome (setError "" (setIsLoading true st)).

(** [handleGoHome]. *)
Definition handleGoHome (st : State) : State := routerPush "/dashboard" st.

(** *** [handleCreateRoom] and [handleJoinRoom] *)

(** A parsed response body, seen through the reads the handlers make of
    it: [body.message] (which throws on a [null] body; [None] is a falsy
    value, [Some m] a truthy one that [new Error(...)] turns into the text
    [m]); [body.name] as the template literal prints it (which throws on a
    [null] body as well); and the body as the value that [setRooms] puts
    into the list, whatever it is. *)
Record Body := {
  readMessage : JS.Thrown + option string;
  readName : JS.Thrown + string;
  asRoom : ChatRoom;
}.

(** The double-quote character of the template literals. *)
Definition quote : string := String "034"%char "".

(** [errorData.message || fallback], thrown as [new Error(...)]. *)
Definition thrownMessage (fallback : string) (body : Body) : JS.Thrown :=
  match readMessage body with
  | inl err => err
  | inr (Some m) => JS.ErrorObject m
  | inr None => JS.ErrorObject fallback
  end.

(** [handleCreateRoom], with [now] the clock reading when it reports. *)
Definition handleCreateRoom (now : Z) (outcome : Chat.Fetched Body) (st : State)
    : State :=
  if negb (JS.truthy (JS.trim (roomName st))) then
    addToast now
      (toast Toast.warning "Room name required" "Please enter a name for your room") st
  else
    let caught (err : JS.Thrown) (st1 : State) : State :=
      addToast now
        (toast Toast.error "Failed to create room"
           (JS.messageOr "Failed to create room" err)) st1 in
    let st1 := setIsCreatingRoom true st in
    setIsCreatingRoom false
      match outcome with
      | Chat.Rejects err => caught err st1
      | Chat.Resolves res =>
          match Chat.json res with
          | inl err => caught err st1
          | inr body =>
              if negb (Chat.ok res) then
                caught (thrownMessage "Failed to create room" body) st1
              else
                (* setRooms and setRoomName have run when data.name is read *)
                let st2 := setRoomName "" (setRooms (asRoom body :: rooms st1) st1) in
                match readName body with
                | inl err => caught err st2
                | inr created =>
                    addToast now
                      (toast Toast.success "Room created"
                         ("Successfully created " +:+ quote +:+ created +:+ quote))
                      st2
                end
          end
      end.

(** [handleJoinRoom]; [refreshed] is what the [fetchRooms()] request it
    awaits after a successful join settles to. *)
Definition handleJoinRoom (now : Z) (outcome : Chat.Fetched Body)
    (refreshed : Chat.Fetched (list ChatRoom)) (st : State) : State :=
  if negb (JS.truthy (JS.trim (joinRoomId st))) then
    addToast now
      (toast Toast.warning "Room ID required" "Please enter a room ID to join") st
  else
    let caught (err : JS.Thrown) (st1 : State) : State :=
      addToast now
        (toast Toast.error "Failed to join room"
           (JS.messageOr "Failed to join room" err)) st1 in
    let st1 := setIsJoiningRoom true st in
    setIsJoiningRoom false
      match outcome with
      | Chat.Rejects err => caught err st1
      | Chat.Resolves res =>
          if negb (Chat.ok res) then
            match Chat.json res with
            | inl err => caught err st1
            | inr body =>
                if Chat.status res =? 409 then
                  addToast now
                    (toast Toast.warning "Already a member"
                       "You're already a member of this room") st1
                else if Chat.status res =? 404 then
                  addToast now
                    (toast Toast.error "Room not found"
                       "The room ID you entered doesn't exist") st1
                else caught (thrownMessage "Failed to join room" body) st1
            end
          else
            addToast now
              (toast Toast.success "Joined room" "Successfully joined the room")
              (setJoinRoomId "" (fetchRooms refreshed st1))
      end.

(** *** Rendering *)

Inductive View :=
| LoadingPageView
| ErrorPageView (props : ErrorUI.ErrorPageProps)
| RoomListView (shownToasts : list Toast.Entry) (createDisabled joinDisabled : bool)
    (cards : list ChatRoom).

(** The page's [return] statements, in order. In the props of [ErrorPage],
    [ErrorUI.HandleGoBack] stands for this page's [handleGoHome]. *)
Definition render (st : State) : View :=
  if isLoading st then LoadingPageView
  else if JS.truthy (error st) then
    ErrorPageView
      {| ErrorUI.title := Some "Failed to load chat rooms";
         ErrorUI.description := Some (error st);
         ErrorUI.onRetry := Some ErrorUI.HandleRetry;
         ErrorUI.onGoHome := Some ErrorUI.HandleGoBack;
         ErrorUI.showRetry := None;
         ErrorUI.showGoHome := None |}
  else
    RoomListView (Toast.toasts (toastQueue st))
      (isCreatingRoom st || negb (JS.truthy (JS.trim (roomName st))))
      (isJoiningRoom st || negb (JS.truthy (JS.trim (joinRoomId st))))
      (rooms st).

End Rooms.

(** ** Regular expressions of the form validators *)

Module Regex.

(** The fragment the pages use: a character class, its greedy repetitions
    ([*] and [+]), concatenation, the positive lookahead [(?=...)] and the
    end-of-input assertion [$]. *)
Inductive Re :=
| Class (cls : ascii → bool)
| Many0 (cls : ascii → bool)
| Many1 (cls : ascii → bool)
| Seq (a b : Re)
| Ahead (a : Re)
| EndOfInput.

(** Greedy repetition with backtracking: take one more character of the
    class if that leads to a match, else continue from here. *)
Fixpoint many0 (cls : ascii → bool) (k : string → bool) (s : string) : bool :=
  match s with
  | EmptyString => k s
  | String c rest => (cls c && many0 cls k rest) || k s
  end.

(** Whether the pattern matches at the start of [s], with [k] deciding on
    what follows the match. *)
Fixpoint matchK (re : Re) (k : string → bool) (s : string) : bool :=
  match re with
  | Class cls =>
      match s with
      | EmptyString => false
      | String c rest => cls c && k rest
      end
  | Many0 cls => many0 cls k s
  | Many1 cls =>
      match s with
      | EmptyString => false
      | String c rest => cls c && many0 cls k rest
      end
  | Seq a b => matchK a (matchK b k) s
  | Ahead a => matchK a (λ _, true) s && k s
  | EndOfInput =>
      match s with
      | EmptyString => k s
      | String _ _ => false
      end
  end.

(** A pattern that starts with [^]: it may match at position 0 only. *)
Definition testAnchored (re : Re) (s : string) : bool := matchK re (λ _, true) s.

(** [re.test(s)] for a pattern without [^]: the first position, from left
    to right, at which it matches. *)
Fixpoint test (re : Re) (s : string) : bool :=
  matchK re (λ _, true) s
  || match s with
     | EmptyString => false
     | String _ rest => test re rest
     end.

Definition code (c : ascii) : N := N_of_ascii c.

(** [[a-z]], [[A-Z]], [\d], [[a-zA-Z0-9_]], [\S], [.] and the literal
    characters, on code units below 256. *)
Definition lower (c : ascii) : bool := ((97 <=? code c) && (code c <=? 122))%N.
Definition upper (c : ascii) : bool := ((65 <=? code c) && (code c <=? 90))%N.
Definition digit (c : ascii) : bool := ((48 <=? code c) && (code c <=? 57))%N.
Definition word (c : ascii) : bool := lower c || upper c || digit c || (code c =? 95)%N.
Definition nonSpace (c : ascii) : bool := negb (JS.isWhiteSpace c).
Definition dot (c : ascii) : bool := negb ((code c =? 10) || (code c =? 13))%N.
Definition lit (x : ascii) (c : ascii) : bool := Ascii.eqb c x.

(** The class of the strength meter's last check: the characters
    ! @ # $ % ^ & * ( ) , . ? double-quote : { } | < > *)
Definition special (c : ascii) : bool :=
  existsb (N.eqb (code c))
    [33; 64; 35; 36; 37; 94; 38; 42; 40; 41; 44; 46; 63; 34; 58; 123; 125; 124; 60; 62]%N.

(** Whether some character of the string is in the class. *)
Fixpoint anyChar (cls : ascii → bool) (s : string) : bool :=
  match s with
  | EmptyString => false
  | String c rest => cls c || anyChar cls rest
  end.

(** Whether every character of the string is in the class. *)
Fixpoint allChars (cls : ascii → bool) (s : string) : bool :=
  match s with
  | EmptyString => true
  | String c rest => cls c && allChars cls rest
  end.

End Regex.

(** ** The registration and login forms *)

Module Forms.

Import Regex.

(** [/\S+@\S+\.\S+/] *)
Definition emailPattern : Re :=
  Seq (Many1 nonSpace)
    (Seq (Class (lit "@"))
       (Seq (Many1 nonSpace) (Seq (Class (lit ".")) (Many1 nonSpace)))).

(** [/^[a-zA-Z0-9_]+$/] *)
Definition usernamePattern : Re := Seq (Many1 word) EndOfInput.

(** [/(?=.*[a-z])(?=.*[A-Z])(?=.*\d)/] *)
Definition passwordPattern : Re :=
  Seq (Ahead (Seq (Many0 dot) (Class lower)))
    (Seq (Ahead (Seq (Many0 dot) (Class upper)))
       (Ahead (Seq (Many0 dot) (Class digit)))).

(** [!s.trim()] *)
Definition blank (s : string) : bool := negb (JS.truthy (JS.trim s)).

(** [s.length] *)
Definition len (s : string) : Z := Z.of_nat (String.length s).

(** [FieldErrors]: an absent key is [None]. *)
Record FieldErrors := {
  email : option string;
  username : option string;
  password : option string;
  confirmPassword : option string;
}.

(** [Object.keys(errors).length] *)
Definition keyCount (errors : FieldErrors) : Z :=
  Z.of_nat (length (omap (λ x, x)
    [email errors; username errors; password errors; confirmPassword errors])).

(** The registration page's [validateForm]: the errors it stores with
    [setFieldErrors], and the boolean it returns. *)
Definition validateForm (emailValue usernameValue passwordValue confirmValue : string)
    : FieldErrors * bool :=
  let errors :=
    {| email :=
         if blank emailValue then Some "Email is required"
         else if negb (test emailPattern emailValue) then
           Some "Please enter a valid email"
         else None;
       username :=
         if blank usernameValue then Some "Username is required"
         else if len usernameValue <? 3 then
           Some "Username must be at least 3 characters"
         else if 20 <? len usernameValue then
           Some "Username must be less than 20 characters"
         else if negb (testAnchored usernamePattern usernameValue) then
           Some "Username can only contain letters, numbers, and underscores"
         else None;
       password :=
         if blank passwordValue then Some "Password is required"
         else if len passwordValue <? 6 then
           Some "Password must be at least 6 characters"
         else if negb (test passwordPattern passwordValue) then
           Some "Password must contain at least one uppercase letter, one lowercase letter, and one number"
         else None;
       confirmPassword :=
         if blank confirmValue then Some "Please confirm your password"
         else if negb (String.eqb passwordValue confirmValue) then
           Some "Passwords do not match"
         else None |} in
  (errors, keyCount errors =? 0).

(** The login page's [validateForm]; it has the two keys [email] and
    [password] only. *)
Definition loginValidateForm (emailValue passwordValue : string)
    : option string * option string * bool :=
  let emailError :=
    if blank emailValue then Some "Email is required"
    else if negb (test emailPattern emailValue) then
      Some "Please enter a valid email"
    else None in
  let passwordError :=
    if blank passwordValue then Some "Password is required"
    else if len passwordValue <? 6 then
      Some "Password must be at least 6 characters"
    else None in
  (emailError, passwordError,
   Z.of_nat (length (omap (λ x, x) [emailError; passwordError])) =? 0).

(** What [getPasswordStrength] returns. *)
Record Strength := {
  strength : Z;
  label : string;
  color : option string;
}.

(** The five checks of [getPasswordStrength], in order. *)
Definition checks (passwordValue : string) : list bool :=
  [6 <=? len passwordValue;
   test (Class lower) passwordValue;
   test (Class upper) passwordValue;
   test (Class digit) passwordValue;
   test (Class special) passwordValue].

Definition getPasswordStrength (passwordValue : string) : Strength :=
  if negb (JS.truthy passwordValue) then
    {| strength := 0; label := ""; color := None |}
  else
    let n := fold_left (λ acc (check : bool), if check then acc + 1 else acc)
               (checks passwordValue) 0 in
    if n <? 2 then {| strength := n; label := "Weak"; color := Some "text-red-600" |}
    else if n <? 4 then
      {| strength := n; label := "Fair"; color := Some "text-yellow-600" |}
    else {| strength := n; label := "Strong"; color := Some "text-green-600" |}.

End Forms.

(** ** Reading a history of queue events *)

Module ToastTrace.

Import Toast.

(** The clock readings of the [addToast] calls of a history, in order. *)
Definition addTimes (es : list Event) : list Z :=
  omap (λ e, match e with Add now _ => Some now | _ => None end) es.

(** The entries the [addToast] calls of a history created, in order. *)
Definition added (es : list Event) : list Entry :=
  omap (λ e, match e with
             | Add now toast => Some (withId toast (JS.toString now))
             | _ => None
             end) es.

(** The timers the [addToast] calls of a history registered, in order. *)
Definition scheduled (es : list Event) : list Timer :=
  omap (λ e, match e with
             | Add now _ => Some {| fireAt := now + TTL; target := JS.toString now |}
             | _ => None
             end) es.

(** Whether an event can remove entries with the id [i]: a dismissal of
    [i], or the run of a timer whose callback captured [i]. *)
Definition removes (i : string) (e : Event) : bool :=
  match e with
  | Add _ _ => false
  | Remove j => bool_decide (j = i)
  | Fire _ tm => bool_decide (target tm = i)
  end.

Definition isFire (e : Event) : bool :=
  match e with
  | Fire _ _ => true
  | _ => false
  end.

(** Every entry has the pending timer that its [addToast] call registered. *)
Definition covered (q : Queue) : Prop :=
  ∀ t, t ∈ toasts q →
    ∃ n, id t = JS.toString n
         ∧ {| fireAt := n + 5000; target := JS.toString n |} ∈ timers q.

End ToastTrace.

(** ** More sample data *)

Module Samples.

Import Scenario.

(** A history of the queue: two notifications, the first one dismissed. *)
Definition twoAdds : list Toast.Event :=
  [Toast.Add created copied;
   Toast.Add (created + 1200) copyFailed;
   Toast.Remove (JS.toString created)].

(** A page of room A with "hello" typed into the input. *)
Definition helloInput : Chat.State :=
  Chat.setMessage "hello" (Chat.component (loaded [m1])).

(** A socket hook that is not connected: every send throws. *)
Definition brokenSocket (content : string) (sent : list string)
    : option JS.Thrown * list string :=
  (Some (JS.ErrorObject "Socket is not connected"), sent).

(** The page of room A after a load in which both requests came back 404. *)
Definition notFound : Chat.Page :=
  Chat.run [Chat.RoomInfoSettles "A" (statusOnly 404);
            Chat.MessagesSettle "A" (statusOnly 404)]
           (Chat.mount (Some "A") storage).

Definition okRoomResponse : Chat.Response (option Chat.RoomInfo) :=
  {| Chat.status := 200; Chat.json := inr (Some roomA) |}.
Definition okMessagesResponse : Chat.Response Chat.MessagesData :=
  {| Chat.status := 200; Chat.json := inr (Chat.IsArray [m1; m2]) |}.

(** The room-list page after a load that found no room, with a name and an
    id typed into its two forms. *)
Definition typing : Rooms.State :=
  Rooms.setJoinRoomId "r-7"
    (Rooms.setRoomName "general"
       (Rooms.mount (Chat.Resolves {| Chat.status := 200; Chat.json := inr [] |})
          storage)).

Definition general : Rooms.ChatRoom :=
  {| Rooms.id := "r-1"; Rooms.name := "general";
     Rooms.createdAt := "2024-05-01T10:00:00.000Z";
     Rooms.messageCount := 0; Rooms.memberCount := 1 |}.

(** A body that is the created room. *)
Definition generalBody : Rooms.Body :=
  {| Rooms.readMessage := inr None; Rooms.readName := inr "general";
     Rooms.asRoom := general |}.

(** The body [null]: reading a property of it throws a [TypeError];
    [entry] stands for it as an element of the room list. *)
Definition nullBody (entry : Rooms.ChatRoom) : Rooms.Body :=
  {| Rooms.readMessage :=
       inl (JS.ErrorObject "Cannot read properties of null (reading 'message')");
     Rooms.readName :=
       inl (JS.ErrorObject "Cannot read properties of null (reading 'name')");
     Rooms.asRoom := entry |}.

End Samples.

(** * Properties of the notification queue *)

Section ToastFacts.

Import Toast.
Implicit Types (q : Queue) (l : list Entry) (x y : string) (tm : Timer).

Lemma to_int_wellformed (n : Z) :
  Z.to_int n ≠ Decimal.Pos Decimal.Nil ∧ Z.to_int n ≠ Decimal.Neg Decimal.Nil.
Proof.
  destruct n as [|p|p]; simpl; split; try discriminate;
    intros [= H]; by apply DecimalPos.Unsigned.to_uint_nonnil in H.
Qed.

Lemma toString_inj (m n : Z) : JS.toString m = JS.toString n → m = n.
Proof.
  unfold JS.toString. intros H. apply DecimalZ.to_int_inj.
  destruct (to_int_wellformed m) as [Hm1 Hm2].
  destruct (to_int_wellformed n) as [Hn1 Hn2].
  pose proof (NilZero.isi _ Hm1 Hm2) as Hm.
  pose proof (NilZero.isi _ Hn1 Hn2) as Hn.
  rewrite H in Hm. congruence.
Qed.

Lemma withoutId_elem x l (t : Entry) : t ∈ withoutId x l ↔ id t ≠ x ∧ t ∈ l.
Proof. unfold withoutId. by rewrite list_elem_of_filter. Qed.

Lemma withoutId_ids x l : x ∉ id <$> withoutId x l.
Proof.
  intros (t & Hid & Hin)%list_elem_of_fmap.
  apply withoutId_elem in Hin as [Hne _]. congruence.
Qed.

Lemma withoutId_absent x l : x ∉ id <$> l → withoutId x l = l.
Proof.
  unfold withoutId. induction l as [|t l IH]; intros Hx; [done|].
  rewrite fmap_cons, not_elem_of_cons in Hx. destruct Hx as [Hne Hx].
  rewrite filter_cons_True by congruence. f_equal. by apply IH.
Qed.

Lemma withoutId_idem x l : withoutId x (withoutId x l) = withoutId x l.
Proof. apply withoutId_absent, withoutId_ids. Qed.

Lemma withoutId_comm x y l :
  withoutId x (withoutId y l) = withoutId y (withoutId x l).
Proof.
  unfold withoutId. rewrite !list_filter_filter.
  apply list_filter_iff. intros t. tauto.
Qed.

Lemma unschedule_other tm tm' (ts : list Timer) :
  tm ≠ tm' → tm ∈ ts → tm ∈ unschedule tm' ts.
Proof.
  intros Hne. induction ts as [|t ts IH]; simpl; [done|].
  rewrite elem_of_cons. intros [->|Hin].
  - rewrite decide_False by done. apply list_elem_of_here.
  - case_decide; [done|]. apply list_elem_of_further. by apply IH.
Qed.

(** A pending timer stays pending as long as the event loop does not run it:
    nothing else in the hook touches the timers. *)
Lemma pending_step tm (e : Event) q :
  (∀ t, e ≠ Fire t tm) → tm ∈ timers q → tm ∈ timers (step e q).
Proof.
  intros Hfire Hin. destruct e as [now toast|i|now tm']; simpl.
  - apply elem_of_app. by left.
  - done.
  - destruct (due now tm' q); [|done]. simpl.
    apply unschedule_other; [|done]. intros ->. by apply (Hfire now).
Qed.

Lemma pending_run tm (es : list Event) q :
  (∀ t, Fire t tm ∉ es) → tm ∈ timers q → tm ∈ timers (run es q).
Proof.
  revert q. induction es as [|e es IH]; intros q Hfire Hin; [done|].
  simpl. apply IH.
  - intros t Ht. apply (Hfire t). by apply list_elem_of_further.
  - apply pending_step; [|done].
    intros t ->. apply (Hfire t). apply list_elem_of_here.
Qed.

Lemma addToast_schedules now (toast : Input) q :
  {| fireAt := now + 5000; target := JS.toString now |} ∈ timers (addToast now toast q).
Proof. simpl. apply elem_of_app. right. apply list_elem_of_here. Qed.

Lemma addToast_appends now (toast : Input) q :
  toasts (addToast now toast q) = toasts q ++ [withId toast (JS.toString now)].
Proof. done. Qed.

(** Under distinct clock readings the assigned ids differ. *)
Lemma addToast_distinct_times (m n : Z) (a b : Input) q q' :
  m ≠ n →
  last (ids (addToast m a q)) ≠ last (ids (addToast n b q')).
Proof.
  intros Hne. unfold ids. rewrite !addToast_appends, !fmap_app. simpl.
  rewrite !last_snoc. intros [= H]. by apply Hne, toString_inj.
Qed.

(** C4 (expiry). A notification is added when the clock reads [now]; any
    events follow, except that the timer registered by that call has not run
    yet; then the event loop runs it, at a time [later] that is at least
    5000 ms after the creation. Afterwards no entry of the queue carries the
    id assigned at creation. (No assumption on manual removals is needed.) *)
Theorem toast_expiry (now later : Z) (toast : Input) (es : list Event) q :
  let tm := {| fireAt := now + 5000; target := JS.toString now |} in
  (∀ t, Fire t tm ∉ es) →
  now + 5000 ≤ later →
  JS.toString now ∉ ids (step (Fire later tm) (run es (addToast now toast q))).
Proof.
  intros tm Hfire Hlate.
  assert (Hpend : tm ∈ timers (run es (addToast now toast q)))
    by (apply pending_run; [done|apply addToast_schedules]).
  simpl. unfold due.
  rewrite bool_decide_eq_true_2 by done.
  replace (fireAt tm <=? later) with true
    by (symmetry; apply Z.leb_le; exact Hlate).
  simpl. apply withoutId_ids.
Qed.

(** C5 (idempotent removal). Removing the same id twice is the same as
    removing it once; removing an id that no entry carries changes nothing;
    a manual removal and a timer run commute, and a timer for an id that was
    already dismissed leaves the entries as they are. All these functions
    are total: there is no failing case. *)
Theorem removal_idempotent (x : string) q :
  removeToast x (removeToast x q) = removeToast x q
  ∧ (x ∉ ids q → removeToast x q = q)
  ∧ (∀ now tm,
       removeToast x (step (Fire now tm) q) = step (Fire now tm) (removeToast x q))
  ∧ (∀ now tm, target tm = x →
       toasts (step (Fire now tm) (removeToast x q)) = toasts (removeToast x q)
       ∧ toasts (removeToast x (step (Fire now tm) q)) = toasts (removeToast x q)).
Proof.
  assert (Hcomm : ∀ now tm,
    removeToast x (step (Fire now tm) q) = step (Fire now tm) (removeToast x q)).
  { intros now tm. simpl. unfold due. simpl.
    destruct (bool_decide (tm ∈ timers q) && (fireAt tm <=? now)); [|done].
    unfold removeToast, fireTimer. simpl. f_equal. apply withoutId_comm. }
  assert (Hlate : ∀ now tm, target tm = x →
    toasts (step (Fire now tm) (removeToast x q)) = toasts (removeToast x q)).
  { intros now tm <-. simpl. unfold due. simpl.
    destruct (bool_decide (tm ∈ timers q) && (fireAt tm <=? now)); [|done].
    simpl. apply withoutId_idem. }
  split; [|split; [|split]].
  - unfold removeToast. simpl. f_equal. apply withoutId_idem.
  - intros Hx. destruct q as [l ts]. unfold removeToast. simpl. f_equal.
    by apply withoutId_absent.
  - exact Hcomm.
  - intros now tm Htm. split; [by apply Hlate|].
    rewrite Hcomm. by apply Hlate.
Qed.

(** C6, on the code: two [addToast] calls made while [Date.now()] returns
    the same value give both entries the same id, so the queue then holds
    two entries with one id, and dismissing either removes both. *)
Theorem addToast_same_millisecond (now : Z) (a b : Input) q :
  let q2 := addToast now b (addToast now a q) in
  ids q2 = ids q ++ [JS.toString now; JS.toString now]
  ∧ ¬ NoDup (ids q2)
  ∧ ids (removeToast (JS.toString now) q2) = ids (removeToast (JS.toString now) q).
Proof.
  intros q2.
  assert (Hids : ids q2 = ids q ++ [JS.toString now; JS.toString now]).
  { unfold q2, ids. rewrite !addToast_appends, !fmap_app, <- app_assoc. done. }
  split; [exact Hids|split].
  - rewrite Hids. intros [_ [_ Hnd]]%NoDup_app.
    apply NoDup_cons in Hnd as [Hnot _]. apply Hnot, list_elem_of_here.
  - unfold q2, ids, removeToast. simpl. unfold withoutId.
    rewrite <- app_assoc, filter_app. simpl.
    rewrite !filter_cons_False, filter_nil, app_nil_r; naive_solver.
Qed.

(** C10 (frame). Removing [x] keeps the entries with another id: the result
    is a subsequence of the queue (same records, same order), every entry
    with another id is still there, the subsequence selected by any
    property that excludes the id [x] is literally the same before and
    after, an entry that disappeared carried the id [x], and the timers are
    untouched. *)
Theorem removal_frame (x : string) q :
  toasts (removeToast x q) `sublist_of` toasts q
  ∧ (∀ t, t ∈ toasts q → id t ≠ x → t ∈ toasts (removeToast x q))
  ∧ (∀ (P : Entry → Prop) `{!∀ t, Decision (P t)},
       (∀ t, P t → id t ≠ x) →
       filter P (toasts (removeToast x q)) = filter P (toasts q))
  ∧ (∀ t, t ∈ toasts q → t ∉ toasts (removeToast x q) → id t = x)
  ∧ timers (removeToast x q) = timers q.
Proof.
  simpl. repeat split.
  - apply sublist_filter.
  - intros t Hin Hne. by apply withoutId_elem.
  - intros P HP Himp. unfold withoutId. by apply list_filter_filter_l.
  - intros t Hin Hout. destruct (decide (id t = x)) as [|Hne]; [done|].
    exfalso. apply Hout. by apply withoutId_elem.
Qed.

End ToastFacts.

(** * Properties of the chat-room view *)

Section ChatFacts.

Import Chat.
Implicit Types (st : State) (p : Page) (socket history : list Message).

(** The chat view maps over the concatenation, or shows no entry at all. *)
Lemma rendered_render st socket :
  rendered (render st socket) = []
  ∨ rendered (render st socket) = messages st ++ socket.
Proof.
  unfold render, rendered, mergedView.
  destruct (negb (JS.truthyOpt (roomId st))); [by left|].
  destruct (isLoading st); [by left|].
  destruct (JS.truthy (error st)); [by left|]. simpl.
  destruct (isLoadingMessages st); [by left|].
  destruct (Z.of_nat (length (messages st ++ socket)) =? 0); [by left|by right].
Qed.

(** Once the room and its history are loaded without error, the entries on
    display are exactly the history followed by the socket messages. *)
Lemma rendered_loaded st socket :
  JS.truthyOpt (roomId st) = true →
  isLoading st = false →
  error st = "" →
  isLoadingMessages st = false →
  rendered (render st socket) = messages st ++ socket.
Proof.
  intros Hroom Hload Herr Hmsgs.
  unfold render, rendered, mergedView.
  rewrite Hroom, Hload, Herr, Hmsgs. simpl.
  destruct (Z.of_nat (length (messages st ++ socket)) =? 0) eqn:Hlen; [|done].
  apply Z.eqb_eq in Hlen. symmetry. apply length_zero_iff_nil. lia.
Qed.

Lemma occurs_never (l : list string) (x : string) :
  x ∉ l → filter (λ y, y = x) l = [].
Proof.
  induction l as [|y l IH]; [done|].
  intros [Hne Hl]%not_elem_of_cons.
  rewrite filter_cons_False by congruence. by apply IH.
Qed.

Lemma occurs_once (l : list string) (x : string) :
  NoDup l → x ∈ l → length (filter (λ y, y = x) l) = 1%nat.
Proof.
  induction l as [|y l IH]; intros Hnd Hin; [by apply elem_of_nil in Hin|].
  apply NoDup_cons in Hnd as [Hy Hnd].
  destruct (decide (y = x)) as [->|Hne].
  - rewrite filter_cons_True by done. by rewrite occurs_never.
  - rewrite filter_cons_False by done. apply IH; [done|].
    apply elem_of_cons in Hin as [->|]; done.
Qed.

(** C1, as the code has it. The view performs no deduplication: on a loaded
    page it renders the history followed by the socket messages, as they
    are. When no id occurs twice, neither inside one of the two lists nor
    across them, no two rendered entries share an id, and on a loaded page
    the id of every message of either list occurs exactly once among the
    rendered keys. *)
Theorem merged_view_distinct_ids st socket :
  NoDup (id <$> messages st) →
  NoDup (id <$> socket) →
  (∀ m n, m ∈ messages st → n ∈ socket → id m ≠ id n) →
  NoDup (keys (render st socket))
  ∧ (JS.truthyOpt (roomId st) = true → isLoading st = false →
     error st = "" → isLoadingMessages st = false →
     rendered (render st socket) = messages st ++ socket
     ∧ ∀ m, m ∈ messages st ∨ m ∈ socket →
         length (filter (λ k, k = id m) (keys (render st socket))) = 1%nat).
Proof.
  intros Hh Hs Hcross.
  assert (Hkeys : NoDup (keys (render st socket))).
  { unfold keys.
    destruct (rendered_render st socket) as [-> | ->]; [constructor|].
    rewrite fmap_app. apply NoDup_app. split; [done|]. split; [|done].
    intros i (m & -> & Hm)%list_elem_of_fmap (n & Heq & Hn)%list_elem_of_fmap.
    by apply (Hcross m n). }
  split; [exact Hkeys|].
  intros Hroom Hload Herr Hmsgs.
  assert (Hrows : rendered (render st socket) = messages st ++ socket)
    by (by apply rendered_loaded).
  split; [exact Hrows|].
  intros m Hm. apply occurs_once; [exact Hkeys|].
  unfold keys. rewrite Hrows. apply list_elem_of_fmap. exists m.
  split; [done|]. apply elem_of_app. exact Hm.
Qed.

(** The converse: a view of distinct ids needs inputs of distinct ids. *)
Lemma distinct_keys_need_distinct_inputs st socket :
  rendered (render st socket) = messages st ++ socket →
  NoDup (keys (render st socket)) →
  NoDup (id <$> messages st) ∧ NoDup (id <$> socket)
  ∧ (∀ m n, m ∈ messages st → n ∈ socket → id m ≠ id n).
Proof.
  unfold keys. intros ->. rewrite fmap_app.
  intros (Hh & Hcross & Hs)%NoDup_app. repeat split; [done..|].
  intros m n Hm Hn Heq. apply (Hcross (id m)).
  - apply list_elem_of_fmap. by exists m.
  - rewrite Heq. apply list_elem_of_fmap. by exists n.
Qed.

(** C1, as stated, fails: the history holds message 1, and the socket then
    delivers message 1 again (the echo) and message 2. The view shows the
    keys 1, 1, 2. *)
Lemma merged_view_duplicates_echo :
  keys (render (component (Scenario.loaded [Scenario.m1]))
               [Scenario.m1; Scenario.m2]) = ["1"; "1"; "2"]
  ∧ ¬ NoDup (keys (render (component (Scenario.loaded [Scenario.m1]))
                          [Scenario.m1; Scenario.m2])).
Proof.
  assert (E : keys (render (component (Scenario.loaded [Scenario.m1]))
                           [Scenario.m1; Scenario.m2]) = ["1"; "1"; "2"])
    by (vm_compute; reflexivity).
  split; [exact E|]. rewrite E.
  intros [Hnot _]%NoDup_cons. apply Hnot, list_elem_of_here.
Qed.

(** C2, as the code has it. The view performs no sort: on a loaded page it
    renders the history followed by the socket messages, each in the order
    it is held. When the history is in display order, the socket messages
    are in display order, and every history message may stand before every
    socket message, the rendered sequence is in display order. *)
Theorem merged_view_sorted (instant : string → Z) st socket :
  Order.displaySorted instant (messages st) →
  Order.displaySorted instant socket →
  (∀ m n, m ∈ messages st → n ∈ socket → Order.displayLe instant m n) →
  Order.displaySorted instant (rendered (render st socket))
  ∧ (JS.truthyOpt (roomId st) = true → isLoading st = false →
     error st = "" → isLoadingMessages st = false →
     rendered (render st socket) = messages st ++ socket).
Proof.
  intros Hh Hs Hcross. split.
  - unfold Order.displaySorted in *.
    destruct (rendered_render st socket) as [-> | ->]; [constructor|].
    by apply StronglySorted_app_2.
  - intros Hroom Hload Herr Hmsgs. by apply rendered_loaded.
Qed.

(** The converse: the view is in display order only if its inputs are. *)
Lemma display_order_needs_ordered_inputs (instant : string → Z) st socket :
  rendered (render st socket) = messages st ++ socket →
  Order.displaySorted instant (rendered (render st socket)) →
  Order.displaySorted instant (messages st)
  ∧ Order.displaySorted instant socket
  ∧ (∀ m n, m ∈ messages st → n ∈ socket → Order.displayLe instant m n).
Proof.
  unfold Order.displaySorted. intros ->.
  intros (Hcross & Hh & Hs)%StronglySorted_app. done.
Qed.

Lemma displayLe_antisym_id (instant : string → Z) (a b : Message) :
  Order.displayLe instant a b → Order.displayLe instant b a →
  String.leb (id a) (id b) = true ∧ String.leb (id b) (id a) = true.
Proof. unfold Order.displayLe. intros [?|[? ?]] [?|[? ?]]; (done || lia). Qed.

(** C2, as stated, fails: the history holds messages 2 and 3, and the socket
    has delivered message 2. The view shows 2, 3, 2, which is in display
    order under no reading of the timestamps. *)
Lemma merged_view_unsorted_late_history :
  rendered (render (component (Scenario.loaded [Scenario.m2; Scenario.m3]))
                   [Scenario.m2])
    = [Scenario.m2; Scenario.m3; Scenario.m2]
  ∧ ¬ ∃ instant : string → Z,
        Order.displaySorted instant
          (rendered (render (component (Scenario.loaded [Scenario.m2; Scenario.m3]))
                            [Scenario.m2])).
Proof.
  assert (E : rendered (render (component (Scenario.loaded [Scenario.m2; Scenario.m3]))
                               [Scenario.m2])
              = [Scenario.m2; Scenario.m3; Scenario.m2])
    by (vm_compute; reflexivity).
  split; [exact E|]. rewrite E. intros [instant Hsorted].
  unfold Order.displaySorted in Hsorted.
  apply StronglySorted_cons in Hsorted as [H23 Hrest].
  apply StronglySorted_cons in Hrest as [H32 _].
  apply Forall_cons in H23 as [H23 _]. apply Forall_cons in H32 as [H32 _].
  destruct (displayLe_antisym_id instant _ _ H23 H32) as [_ Hleb].
  vm_compute in Hleb. discriminate.
Qed.

(** *** Late responses *)

Lemma settleMessages_in_flight (room : string) (outcome : Fetched MessagesData)
    (ls : list Load) st :
  existsb (λ l, bool_decide (forRoom l = room) && messagesPending l) ls = true →
  (settleMessages room outcome ls st).1 = fetchMessages outcome st
  ∨ (settleMessages room outcome ls st).1 = setIsLoading false (fetchMessages outcome st).
Proof.
  induction ls as [|l ls IH]; simpl; [done|].
  destruct (bool_decide (forRoom l = room) && messagesPending l); simpl.
  - intros _. destruct (infoPending l); [by left|by right].
  - intros Hrest. destruct (settleMessages room outcome ls st) as [st' ls'].
    simpl in *. by apply IH.
Qed.

Lemma settleRoomInfo_in_flight (room : string) (outcome : Fetched (option RoomInfo))
    (ls : list Load) st :
  existsb (λ l, bool_decide (forRoom l = room) && infoPending l) ls = true →
  (settleRoomInfo room outcome ls st).1 = fetchRoomInfo outcome st
  ∨ (settleRoomInfo room outcome ls st).1 = setIsLoading false (fetchRoomInfo outcome st).
Proof.
  induction ls as [|l ls IH]; simpl; [done|].
  destruct (bool_decide (forRoom l = room) && infoPending l); simpl.
  - intros _. destruct (messagesPending l); [by left|by right].
  - intros Hrest. destruct (settleRoomInfo room outcome ls st) as [st' ls'].
    simpl in *. by apply IH.
Qed.

Lemma step_MessagesSettle_component (room : string) (outcome : Fetched MessagesData) p :
  component (step (MessagesSettle room outcome) p)
  = (settleMessages room outcome (loads p) (component p)).1.
Proof.
  simpl. by destruct (settleMessages room outcome (loads p) (component p)).
Qed.

(** What [fetchMessages] leaves in the [messages] cell. *)
Lemma fetchMessages_messages (outcome : Fetched MessagesData) st :
  messages (fetchMessages outcome st)
  = match outcome with
    | Rejects _ => messages st
    | Resolves res =>
        if ok res then
          match json res with
          | inl _ => messages st
          | inr (IsArray data) => data
          | inr NotArray => []
          end
        else messages st
    end.
Proof.
  destruct outcome as [err|res]; [done|].
  unfold fetchMessages, fetchMessages_try, ok.
  destruct (status res =? 401) eqn:H401.
  { apply Z.eqb_eq in H401. rewrite H401. done. }
  destruct (status res =? 404) eqn:H404.
  { apply Z.eqb_eq in H404. rewrite H404. done. }
  destruct (status res =? 403) eqn:H403.
  { apply Z.eqb_eq in H403. rewrite H403. done. }
  destruct ((200 <=? status res) && (status res <=? 299)); simpl; [|done].
  by destruct (json res) as [err|[data|]].
Qed.

(** *** Sending *)

(** C7 (validation failure). When the input trims to the empty string,
    [handleSend] returns at its guard: the component state and the socket
    are what they were, whatever the socket hook would do, so nothing is
    sent and no error is recorded. *)
Theorem handleSend_blank {Socket : Type}
    (socketSendMessage : string → Socket → option JS.Thrown * Socket)
    st (sk : Socket) :
  JS.trim (message st) = "" →
  handleSend socketSendMessage st sk = (st, sk).
Proof. intros Hblank. unfold handleSend. by rewrite Hblank. Qed.

(** For contrast: a non-blank input in a room, with no send under way,
    reaches the socket with the content as typed. *)
Lemma handleSend_sends {Socket : Type}
    (socketSendMessage : string → Socket → option JS.Thrown * Socket)
    st (sk : Socket) :
  JS.trim (message st) ≠ "" →
  JS.truthyOpt (roomId st) = true →
  isSendingMessage st = false →
  (handleSend socketSendMessage st sk).2 = (socketSendMessage (message st) sk).2.
Proof.
  intros Hblank Hroom Hsending. unfold handleSend, JS.truthy.
  rewrite Hroom, Hsending.
  destruct (String.eqb_spec (JS.trim (message st)) ""); [done|]. simpl.
  by destruct (socketSendMessage (message st) sk) as [[err|] sk'].
Qed.

(** *** Failed requests *)

(** The three early returns apply to both requests alike. *)
Lemma resume_status (s : Settled) st :
  (responseStatus s = Some 401 →
     ∃ flag : bool,
       resume s st
       = (if flag then setIsLoadingMessages false else λ x, x)
           (routerPush "/auth/login" (removeItem "token" st)))
  ∧ (responseStatus s = Some 404 ∨ responseStatus s = Some 403 →
     ∃ (text : string) (flag : bool),
       JS.truthy text = true
       ∧ resume s st
         = (if flag then setIsLoadingMessages false else λ x, x) (setError text st)).
Proof.
  split.
  - destruct s as [[err|res]|[err|res]]; simpl; try discriminate; intros [= H];
      unfold fetchRoomInfo, fetchMessages, fetchMessages_try; rewrite H.
    + by exists false.
    + by exists true.
  - destruct s as [[err|res]|[err|res]]; simpl;
      (intros [H|H]; try discriminate; injection H as H);
      unfold fetchRoomInfo, fetchMessages, fetchMessages_try; rewrite H.
    + by exists "Room not found", false.
    + by exists "You don't have access to this room", false.
    + by exists "Room not found", true.
    + by exists "You don't have access to this room", true.
Qed.

(** C8 (authorization failure). On a 401 response to either request the
    token is removed from [localStorage] (and nothing else is), the router
    is sent to the login page, and [roomInfo], [messages] and [error] keep
    their values. (The [finally] clause of [fetchMessages] still clears the
    [isLoadingMessages] flag.) *)
Theorem unauthorized_discards_credential (s : Settled) st :
  responseStatus s = Some 401 →
  getItem "token" (resume s st) = None
  ∧ (∀ key, key ≠ "token" → getItem key (resume s st) = getItem key st)
  ∧ pushed (resume s st) = pushed st ++ ["/auth/login"]
  ∧ roomInfo (resume s st) = roomInfo st
  ∧ messages (resume s st) = messages st
  ∧ error (resume s st) = error st.
Proof.
  intros H401. destruct (proj1 (resume_status s st) H401) as [flag ->].
  destruct flag; unfold getItem; simpl;
    (split; [apply lookup_delete_eq|]);
    (split; [intros key Hkey; by apply lookup_delete_ne|done]).
Qed.

(** C9 (room not found, or forbidden). On a 404 or 403 response to either
    request the [error] cell holds a non-empty message, the notification
    queue, [roomInfo] and [messages] are what they were, and once loading
    has ended the page of a room renders [ErrorPage] in place of the chat
    view, with that message and with the "Try Again" button bound to
    [handleRetry]. *)
Theorem room_error_blocks_view (s : Settled) st :
  responseStatus s = Some 404 ∨ responseStatus s = Some 403 →
  JS.truthy (error (resume s st)) = true
  ∧ toastQueue (resume s st) = toastQueue st
  ∧ roomInfo (resume s st) = roomInfo st
  ∧ messages (resume s st) = messages st
  ∧ (JS.truthyOpt (roomId st) = true →
     ∀ socket, ∃ props,
       render (setIsLoading false (resume s st)) socket = ErrorPageView props
       ∧ ErrorUI.description props = Some (error (resume s st))
       ∧ ErrorUI.retryButton props = Some ErrorUI.HandleRetry).
Proof.
  intros Hstatus.
  destruct (proj2 (resume_status s st) Hstatus) as (text & flag & Htext & ->).
  assert (Herr : error ((if flag then setIsLoadingMessages false else λ x, x)
                          (setError text st)) = text) by (by destruct flag).
  rewrite Herr.
  split; [done|]. split; [by destruct flag|]. split; [by destruct flag|].
  split; [by destruct flag|].
  intros Hroom socket. eexists. unfold render.
  replace (roomId (setIsLoading false
             ((if flag then setIsLoadingMessages false else λ x, x)
                (setError text st)))) with (roomId st) by (by destruct flag).
  rewrite Hroom. simpl.
  replace (error ((if flag then setIsLoadingMessages false else λ x, x)
                    (setError text st))) with text by (by destruct flag).
  rewrite Htext. split; [reflexivity|]. split; reflexivity.
Qed.

(** In the page: when the room-metadata request in flight for a room comes
    back 404 or 403, the error is set and the queue is left alone. *)
Lemma room_error_in_page (room : string) (res : Response (option RoomInfo)) p :
  roomInfoInFlight room p = true →
  status res = 404 ∨ status res = 403 →
  JS.truthy (error (component (step (RoomInfoSettles room (Resolves res)) p))) = true
  ∧ toastQueue (component (step (RoomInfoSettles room (Resolves res)) p))
    = toastQueue (component p).
Proof.
  intros Hflight Hstatus.
  assert (Hs : responseStatus (RoomInfoSettled (Resolves res)) = Some 404
             ∨ responseStatus (RoomInfoSettled (Resolves res)) = Some 403)
    by (simpl; destruct Hstatus as [-> | ->]; auto).
  destruct (proj2 (resume_status _ (component p)) Hs) as (text & flag & Htext & Hres).
  unfold resume in Hres.
  replace (component (step (RoomInfoSettles room (Resolves res)) p))
    with (settleRoomInfo room (Resolves res) (loads p) (component p)).1
    by (simpl; by destruct (settleRoomInfo room (Resolves res) (loads p) (component p))).
  destruct (settleRoomInfo_in_flight room (Resolves res) (loads p) (component p) Hflight)
    as [-> | ->]; rewrite Hres; by destruct flag.
Qed.

(** *** The display order *)

Lemma displayLeb_spec (instant : string → Z) (a b : Message) :
  Order.displayLeb instant a b = true ↔ Order.displayLe instant a b.
Proof.
  unfold Order.displayLeb, Order.displayLe.
  rewrite orb_true_iff, andb_true_iff, Z.ltb_lt, Z.eqb_eq. done.
Qed.

End ChatFacts.

(** * The properties at sample inputs *)

Section Instances.

Import Scenario.

(** Expiry of a notification after which a second one was added. *)
Lemma toast_expiry_witness :
  JS.toString created
  ∉ Toast.ids
      (Toast.step (Toast.Fire (created + 5003) expiry)
         (Toast.run [Toast.Add (created + 1200) copyFailed]
            (Toast.addToast created copied Toast.empty))).
Proof.
  apply (toast_expiry created (created + 5003) copied
           [Toast.Add (created + 1200) copyFailed] Toast.empty).
  - intros t Hin. apply list_elem_of_singleton in Hin. discriminate.
  - unfold created. lia.
Defined.

(** Scenario 3 of the specification: add, dismiss one millisecond later,
    then the timer runs; the queue is empty and stays so. *)
Example dismissed_then_expired :
  Toast.toasts
    (Toast.run [Toast.Remove (JS.toString created);
                Toast.Fire (created + 5000) expiry]
       (Toast.addToast created copyFailed Toast.empty)) = [].
Proof. vm_compute. reflexivity. Qed.

(** Dismissing an id that no entry carries changes nothing. *)
Lemma removal_idempotent_witness :
  Toast.removeToast "1714557600001" (Toast.addToast created copied Toast.empty)
  = Toast.addToast created copied Toast.empty.
Proof.
  apply (removal_idempotent "1714557600001"
           (Toast.addToast created copied Toast.empty)).
  vm_compute. intros Hin. apply list_elem_of_singleton in Hin. discriminate.
Defined.

(** Dismissing the second notification keeps the first. *)
Lemma removal_frame_witness :
  Toast.withId copied (JS.toString created)
  ∈ Toast.toasts
      (Toast.removeToast (JS.toString (created + 1200))
         (Toast.addToast (created + 1200) copyFailed
            (Toast.addToast created copied Toast.empty))).
Proof.
  apply (removal_frame (JS.toString (created + 1200))
           (Toast.addToast (created + 1200) copyFailed
              (Toast.addToast created copied Toast.empty))).
  - vm_compute. apply list_elem_of_here.
  - vm_compute. discriminate.
Defined.

(** History 1, socket 2 and 3: the three rows in that order, three
    distinct keys. *)
Lemma merged_view_distinct_ids_witness :
  NoDup (Chat.keys (Chat.render (Chat.component (loaded [m1])) [m2; m3]))
  ∧ Chat.rendered (Chat.render (Chat.component (loaded [m1])) [m2; m3])
    = [m1; m2; m3].
Proof.
  assert (H1 : NoDup (Chat.id <$> Chat.messages (Chat.component (loaded [m1]))))
    by (vm_compute; apply NoDup_singleton).
  assert (H2 : NoDup (Chat.id <$> [m2; m3]))
    by (vm_compute; apply (bool_decide_unpack _); exact I).
  assert (H3 : ∀ m n, m ∈ Chat.messages (Chat.component (loaded [m1])) →
                 n ∈ [m2; m3] → Chat.id m ≠ Chat.id n).
  { intros m n Hm Hn. vm_compute in Hm.
    apply list_elem_of_singleton in Hm. subst m.
    apply elem_of_cons in Hn as [-> | Hn]; [discriminate|].
    apply list_elem_of_singleton in Hn. subst n. discriminate. }
  destruct (merged_view_distinct_ids (Chat.component (loaded [m1])) [m2; m3] H1 H2 H3)
    as [Hkeys Hloaded].
  split; [exact Hkeys|].
  exact (proj1 (Hloaded eq_refl eq_refl eq_refl eq_refl)).
Defined.

(** History 1, socket 2 and 3, in the order of their timestamps. *)
Lemma merged_view_sorted_witness :
  Order.displaySorted clock
    (Chat.rendered (Chat.render (Chat.component (loaded [m1])) [m2; m3]))
  ∧ Chat.rendered (Chat.render (Chat.component (loaded [m1])) [m2; m3])
    = [m1; m2; m3].
Proof.
  assert (H1 : Order.displaySorted clock (Chat.messages (Chat.component (loaded [m1]))))
    by (vm_compute; repeat constructor).
  assert (H2 : Order.displaySorted clock [m2; m3])
    by (unfold Order.displaySorted; repeat constructor).
  assert (H3 : ∀ m n, m ∈ Chat.messages (Chat.component (loaded [m1])) →
                 n ∈ [m2; m3] → Order.displayLe clock m n).
  { intros m n Hm Hn. vm_compute in Hm.
    apply list_elem_of_singleton in Hm. subst m.
    apply elem_of_cons in Hn as [-> | Hn].
    - left. vm_compute. reflexivity.
    - apply list_elem_of_singleton in Hn. subst n. left. vm_compute. reflexivity. }
  destruct (merged_view_sorted clock (Chat.component (loaded [m1])) [m2; m3] H1 H2 H3)
    as [Hsorted Hloaded].
  split; [exact Hsorted|]. exact (Hloaded eq_refl eq_refl eq_refl eq_refl).
Defined.

(** An input of three spaces: nothing is sent. *)
Lemma handleSend_blank_witness :
  Chat.handleSend recordingSocket blankInput [] = (blankInput, []).
Proof.
  apply (handleSend_blank recordingSocket blankInput []).
  vm_compute. reflexivity.
Defined.

(** The same page with a real message: the socket hook receives it. *)
Example handleSend_hello :
  (Chat.handleSend recordingSocket
     (Chat.setMessage "hello" (Chat.component (loaded [m1]))) []).2 = ["hello"].
Proof. vm_compute. reflexivity. Qed.

(** A 401 on the history request of a loaded room. *)
Lemma unauthorized_discards_credential_witness :
  Chat.getItem "token" (Chat.component (loaded [m1])) = Some "secret"
  ∧ Chat.getItem "token"
      (Chat.fetchMessages (statusOnly 401) (Chat.component (loaded [m1]))) = None
  ∧ Chat.messages
      (Chat.fetchMessages (statusOnly 401) (Chat.component (loaded [m1])))
    = Chat.messages (Chat.component (loaded [m1])).
Proof.
  split; [vm_compute; reflexivity|].
  pose proof (unauthorized_discards_credential
                (Chat.MessagesSettled (statusOnly 401))
                (Chat.component (loaded [m1])) eq_refl)
    as (Htoken & _ & _ & _ & Hmessages & _).
  split; [exact Htoken|exact Hmessages].
Defined.

(** A 404 on the room request of a freshly opened page. *)
Lemma room_error_blocks_view_witness :
  ∃ props,
    Chat.render
      (Chat.setIsLoading false
         (Chat.fetchRoomInfo (statusOnly 404) (Chat.initial (Some "A") storage))) []
    = Chat.ErrorPageView props
    ∧ ErrorUI.description props = Some "Room not found"
    ∧ ErrorUI.retryButton props = Some ErrorUI.HandleRetry.
Proof.
  pose proof (room_error_blocks_view
                (Chat.RoomInfoSettled (statusOnly 404))
                (Chat.initial (Some "A") storage) (or_introl eq_refl))
    as (_ & _ & _ & _ & Hview).
  exact (Hview eq_refl []).
Defined.

(** Two notifications created under one clock reading share their id. *)
Example same_millisecond_collision :
  Toast.ids (Toast.addToast created copyFailed
               (Toast.addToast created copied Toast.empty))
  = ["1714557600000"; "1714557600000"]
  ∧ Toast.ids (Toast.removeToast "1714557600000"
                 (Toast.addToast created copyFailed
                    (Toast.addToast created copied Toast.empty))) = [].
Proof. vm_compute. done. Qed.

(** The whole load of a room that does not exist, in both orders of
    settlement: the page ends on [ErrorPage], and the queue stays empty. *)
Example room_not_found_run :
  ∀ es,
    es = [Chat.RoomInfoSettles "A" (statusOnly 404); Chat.MessagesSettle "A" (statusOnly 404)]
    ∨ es = [Chat.MessagesSettle "A" (statusOnly 404); Chat.RoomInfoSettles "A" (statusOnly 404)] →
    let st := Chat.component (Chat.run es (Chat.mount (Some "A") storage)) in
    (ErrorUI.description <$>
       match Chat.render st [] with
       | Chat.ErrorPageView props => Some props
       | _ => None
       end) = Some (Some "Room not found")
    ∧ Chat.toastQueue st = Toast.empty.
Proof. intros es [-> | ->]; vm_compute; done. Qed.

End Instances.

(** * Further properties of the notification queue *)

Section ToastRuns.

Import Toast ToastTrace.
Implicit Types (q : Queue) (es : list Event) (t : Entry) (tm : Timer).

Lemma covered_step (e : Event) q : covered q → covered (step e q).
Proof.
  intros Hcov. destruct e as [now toast|i|now tm]; simpl.
  - intros t [Hold | Hnew%list_elem_of_singleton]%elem_of_app.
    + destruct (Hcov t Hold) as (n & Hid & Htm). exists n.
      split; [done|]. apply elem_of_app. by left.
    + subst t. exists now. split; [done|].
      apply elem_of_app. right. apply list_elem_of_here.
  - intros t [_ Hin]%withoutId_elem. by apply Hcov.
  - destruct (due now tm q); [|done]. simpl.
    intros t [Hne Hin]%withoutId_elem.
    destruct (Hcov t Hin) as (n & Hid & Htm). exists n. split; [done|].
    apply unschedule_other; [|done]. intros <-. simpl in Hne. congruence.
Qed.

Lemma covered_run es q : covered q → covered (run es q).
Proof.
  revert q. induction es as [|e es IH]; intros q Hcov; [done|].
  simpl. by apply IH, covered_step.
Qed.

(** X1. In every queue reached from the empty one, each entry on display
    still has, pending, the timer its creation registered (for the clock
    reading its id spells, due 5000 ms later); so when no timer is pending
    the queue is empty. *)
Theorem entries_have_pending_timers es :
  (∀ t, t ∈ toasts (run es empty) →
     ∃ n, id t = JS.toString n
          ∧ {| fireAt := n + 5000; target := JS.toString n |} ∈ timers (run es empty))
  ∧ (timers (run es empty) = [] → toasts (run es empty) = []).
Proof.
  assert (Hcov : covered (run es empty)).
  { apply covered_run. intros t Hin. by apply elem_of_nil in Hin. }
  split; [exact Hcov|].
  intros Hnone. destruct (toasts (run es empty)) as [|t l] eqn:Hl; [done|].
  exfalso.
  assert (Hin : t ∈ toasts (run es empty)) by (rewrite Hl; apply list_elem_of_here).
  destruct (Hcov t Hin) as (n & _ & Htm).
  rewrite Hnone in Htm. by apply elem_of_nil in Htm.
Qed.

Lemma ids_step_sub (e : Event) q i :
  i ∈ ids (step e q) →
  i ∈ ids q ∨ ∃ now toast, e = Add now toast ∧ i = JS.toString now.
Proof.
  unfold ids. destruct e as [now toast|j|now tm]; simpl.
  - rewrite fmap_app, elem_of_app. simpl. rewrite list_elem_of_singleton.
    intros [?| ->]; [by left|right; eauto].
  - intros (t & -> & [_ Hin]%withoutId_elem)%list_elem_of_fmap.
    left. apply list_elem_of_fmap. eauto.
  - destruct (due now tm q); [|by left]. simpl.
    intros (t & -> & [_ Hin]%withoutId_elem)%list_elem_of_fmap.
    left. apply list_elem_of_fmap. eauto.
Qed.

Lemma NoDup_ids_withoutId (i : string) (l : list Entry) :
  NoDup (id <$> l) → NoDup (id <$> withoutId i l).
Proof.
  intros Hnd. eapply sublist_NoDup; [exact Hnd|].
  apply fmap_sublist. unfold withoutId. apply sublist_filter.
Qed.

Lemma distinct_ids_run es : ∀ q (seen : list Z),
  NoDup (ids q) →
  (∀ i, i ∈ ids q → ∃ n, n ∈ seen ∧ i = JS.toString n) →
  NoDup (seen ++ addTimes es) →
  NoDup (ids (run es q)).
Proof.
  induction es as [|e es IH]; intros q seen Hnd Hseen Htimes; [done|].
  simpl. destruct e as [now toast|j|now tm].
  - apply (IH _ (seen ++ [now])).
    + unfold ids. simpl. rewrite fmap_app. simpl.
      apply NoDup_app. split; [done|]. split; [|apply NoDup_singleton].
      intros i Hi ->%list_elem_of_singleton.
      destruct (Hseen _ Hi) as (n & Hn & Heq).
      apply toString_inj in Heq. subst n.
      simpl in Htimes. apply NoDup_app in Htimes as (_ & Hdisj & _).
      apply (Hdisj now Hn). apply list_elem_of_here.
    + intros i Hi. apply ids_step_sub in Hi as [Hi | (n & t' & [= <- <-] & ->)].
      * destruct (Hseen _ Hi) as (n & Hn & ->). exists n.
        split; [|done]. apply elem_of_app. by left.
      * exists now. split; [|done]. apply elem_of_app. right. apply list_elem_of_here.
    + simpl in Htimes. by rewrite <- app_assoc.
  - apply (IH _ seen); [| |done].
    + by apply NoDup_ids_withoutId.
    + intros i Hi. apply (ids_step_sub (Remove j)) in Hi as [Hi | (? & ? & [=] & _)].
      by apply Hseen.
  - apply (IH _ seen); [| |done].
    + simpl. destruct (due now tm q); [|done]. by apply NoDup_ids_withoutId.
    + intros i Hi. apply (ids_step_sub (Fire now tm)) in Hi as [Hi | (? & ? & [=] & _)].
      by apply Hseen.
Qed.

(** X2. When the [addToast] calls of a history were made under pairwise
    distinct clock readings, no two entries of the queue share an id,
    whatever dismissals and timer runs are interleaved. *)
Theorem distinct_clock_readings_distinct_ids es :
  NoDup (addTimes es) → NoDup (ids (run es empty)).
Proof.
  intros Hnd. apply (distinct_ids_run es empty []); [constructor| |done].
  intros i Hi. by apply elem_of_nil in Hi.
Qed.

Lemma display_order_run es : ∀ q,
  toasts (run es q) `sublist_of` toasts q ++ added es.
Proof.
  induction es as [|e es IH]; intros q; simpl.
  - by rewrite app_nil_r.
  - etrans; [apply IH|]. destruct e as [now toast|j|now tm]; simpl.
    + by rewrite <- app_assoc.
    + apply sublist_app; [apply sublist_filter|done].
    + apply sublist_app; [|done].
      destruct (due now tm q); [apply sublist_filter|done].
Qed.

(** X3. The queue on display is always a subsequence of the notifications
    created so far, in their order of creation: entries are never
    reordered, duplicated or altered, and there are never more of them
    than [addToast] calls. *)
Theorem queue_keeps_creation_order es :
  toasts (run es empty) `sublist_of` added es
  ∧ (length (toasts (run es empty)) ≤ length (addTimes es))%nat.
Proof.
  assert (Hsub : toasts (run es empty) `sublist_of` added es)
    by apply (display_order_run es empty).
  split; [done|].
  apply sublist_length in Hsub. etrans; [exact Hsub|]. clear Hsub.
  induction es as [|[now toast|j|now tm] es IH]; [done|..].
  - change (S (length (added es)) ≤ S (length (addTimes es)))%nat. lia.
  - exact IH.
  - exact IH.
Qed.

(** X4. An entry stays on display through every event that is neither a
    dismissal of its id nor the run of a timer for its id. *)
Theorem entry_stays_until_removed t es q :
  t ∈ toasts q →
  Forall (λ e, removes (id t) e = false) es →
  t ∈ toasts (run es q).
Proof.
  revert q. induction es as [|e es IH]; intros q Hin Hes; [done|].
  apply Forall_cons in Hes as [He Hes]. simpl. apply IH; [|done].
  destruct e as [now toast|j|now tm]; simpl in *.
  - apply elem_of_app. by left.
  - apply withoutId_elem. split; [|done].
    apply bool_decide_eq_false in He. congruence.
  - destruct (due now tm q); [|done]. simpl.
    apply withoutId_elem. split; [|done].
    apply bool_decide_eq_false in He. congruence.
Qed.

(** X5. A manual dismissal cancels nothing: as long as no timer has run,
    the pending timers are exactly those the [addToast] calls registered,
    one per call, dismissed or not. *)
Theorem dismissal_keeps_timers es q :
  Forall (λ e, isFire e = false) es →
  timers (run es q) = timers q ++ scheduled es.
Proof.
  revert q. induction es as [|e es IH]; intros q Hes; simpl.
  - by rewrite app_nil_r.
  - apply Forall_cons in Hes as [He Hes]. rewrite IH by done.
    destruct e as [now toast|j|now tm]; simpl in *; [|done|done].
    by rewrite <- app_assoc.
Qed.

End ToastRuns.

(** * Further properties of the chat-room page *)

Section ChatRuns.

Import Chat ChatActions.
Implicit Types (st : State) (p : Page) (socket : list Message) (r : string).

Lemma fetchRoomInfo_frame (o : Fetched (option RoomInfo)) st :
  untouchedByFetch st (fetchRoomInfo o st)
  ∧ messages (fetchRoomInfo o st) = messages st
  ∧ isLoadingMessages (fetchRoomInfo o st) = isLoadingMessages st.
Proof.
  unfold untouchedByFetch. destruct o as [err|res]; simpl; [done|].
  split_status res; try done. by destruct (json res).
Qed.

Lemma fetchMessages_frame (o : Fetched MessagesData) st :
  untouchedByFetch st (fetchMessages o st)
  ∧ roomInfo (fetchMessages o st) = roomInfo st
  ∧ isLoadingMessages (fetchMessages o st) = false.
Proof.
  unfold untouchedByFetch, fetchMessages. destruct o as [err|res]; simpl; [done|].
  split_status res; try done. by destruct (json res) as [?|[?|]].
Qed.

Lemma ok_status {A} (res : Response A) :
  ok res = true →
  (status res =? 401) = false ∧ (status res =? 404) = false
  ∧ (status res =? 403) = false.
Proof.
  unfold ok. intros [H1 H2]%andb_true_iff.
  apply Z.leb_le in H1, H2. repeat split; apply Z.eqb_neq; lia.
Qed.

Lemma fetchRoomInfo_ok (res : Response (option RoomInfo)) (info : option RoomInfo) st :
  ok res = true → json res = inr info →
  fetchRoomInfo (Resolves res) st = setRoomInfo info st.
Proof.
  intros Hok Hjson. destruct (ok_status res Hok) as (H1 & H2 & H3).
  unfold fetchRoomInfo. by rewrite H1, H2, H3, Hok, Hjson.
Qed.

Lemma fetchMessages_ok (res : Response MessagesData) (data : list Message) st :
  ok res = true → json res = inr (IsArray data) →
  fetchMessages (Resolves res) st
  = setIsLoadingMessages false (setMessages data st).
Proof.
  intros Hok Hjson. destruct (ok_status res Hok) as (H1 & H2 & H3).
  unfold fetchMessages, fetchMessages_try. by rewrite H1, H2, H3, Hok, Hjson.
Qed.

Lemma mount_starts_load r (storage : gmap string string) :
  JS.truthy r = true →
  JS.truthyOpt (storage !! "token") = true →
  mount (Some r) storage
  = {| component := initial (Some r) storage;
       loads := [{| forRoom := r; infoPending := true; messagesPending := true |}] |}.
Proof.
  intros Hr Htoken. unfold mount, roomEffect, getItem. simpl.
  by rewrite Hr, Htoken.
Qed.

(** The entries on display depend on five cells only. *)
Lemma rendered_ext st st' socket :
  roomId st' = roomId st → isLoading st' = isLoading st →
  error st' = error st → isLoadingMessages st' = isLoadingMessages st →
  messages st' = messages st →
  rendered (render st' socket) = rendered (render st socket).
Proof.
  intros H1 H2 H3 H4 H5. unfold render. rewrite H1, H2, H3.
  destruct (negb (JS.truthyOpt (roomId st))); [done|].
  destruct (isLoading st); [done|].
  destruct (JS.truthy (error st)); [done|]. simpl. by rewrite H4, H5.
Qed.

(** X6. Copying the room id, whatever the clipboard answers, changes
    nothing but the copied flag and the notification queue: the entries on
    display, the error and the loading state are as before. In a room, the
    queue grows by exactly one notification; a failed copy reports the
    error's message (or the fallback text) and leaves the flag alone. *)
Theorem copy_changes_flag_and_queue_only (clipboard : option JS.Thrown) (now : Z) st :
  let st' := (handleCopyRoomId clipboard now st).1 in
  setToastQueue (toastQueue st) (setCopiedRoomId (copiedRoomId st) st') = st
  ∧ (∀ socket, rendered (render st' socket) = rendered (render st socket))
  ∧ (JS.truthyOpt (roomId st) = true →
     ∃ t, Toast.toasts (toastQueue st') = Toast.toasts (toastQueue st) ++ [t]
          ∧ Toast.id t = JS.toString now
          ∧ match clipboard with
            | None => Toast.type t = Toast.success ∧ copiedRoomId st' = true
            | Some err =>
                Toast.type t = Toast.error
                ∧ Toast.description t
                  = Some (JS.messageOr "Could not copy room ID to clipboard" err)
                ∧ copiedRoomId st' = copiedRoomId st
            end).
Proof.
  intros st'. subst st'. unfold handleCopyRoomId.
  destruct (JS.truthyOpt (roomId st)) eqn:Hroom; simpl.
  - destruct clipboard as [err|]; simpl.
    + split; [by destruct st|]. split.
      * intros socket. by apply rendered_ext.
      * intros _. eexists. split; [reflexivity|]. simpl. repeat split.
    + split; [by destruct st|]. split.
      * intros socket. by apply rendered_ext.
      * intros _. eexists. split; [reflexivity|]. simpl. repeat split.
  - split; [by destruct st|]. split; [done|]. discriminate.
Qed.

(** X7. The two requests of a load may settle in either order: every cell
    but [error] ends up the same, and [error], too, unless both requests
    fail with a message. *)
Theorem settle_order_matters_for_error_only
    (o1 : Fetched (option RoomInfo)) (o2 : Fetched MessagesData) st :
  setError "" (fetchMessages o2 (fetchRoomInfo o1 st))
  = setError "" (fetchRoomInfo o1 (fetchMessages o2 st))
  ∧ ((∀ st0, error (fetchRoomInfo o1 st0) = error st0)
     ∨ (∀ st0, error (fetchMessages o2 st0) = error st0) →
     fetchMessages o2 (fetchRoomInfo o1 st)
     = fetchRoomInfo o1 (fetchMessages o2 st)).
Proof.
  assert (Hne : ∀ v : string, v ≠ String "x" v).
  { intros v Hv. apply (f_equal String.length) in Hv. simpl in Hv. lia. }
  assert (Hwrites1 : ∀ v,
            (∀ st0, fetchRoomInfo o1 st0 = setError v st0) →
            ¬ ∀ st0, error (fetchRoomInfo o1 st0) = error st0).
  { intros v Hv H. specialize (H (setError (String "x" v) st)).
    rewrite Hv in H. simpl in H. by apply (Hne v). }
  assert (Hwrites2 : ∀ v,
            (∀ st0, fetchMessages o2 st0 = setIsLoadingMessages false (setError v st0)) →
            ¬ ∀ st0, error (fetchMessages o2 st0) = error st0).
  { intros v Hv H. specialize (H (setError (String "x" v) st)).
    rewrite Hv in H. simpl in H. by apply (Hne v). }
  unfold fetchMessages, fetchMessages_try, fetchRoomInfo in *.
  destruct o1 as [e1|res1]; [|split_status res1; [| | | |destruct (json res1) as [e1|d1]]];
  (destruct o2 as [e2|res2];
   [|split_status res2; [| | | |destruct (json res2) as [e2|[d2|]]]]);
  (split; [reflexivity|]);
  try (intros _; reflexivity);
  (intros [H|H]; exfalso;
   [eapply Hwrites1; [|exact H]; intros st0; reflexivity
   |eapply Hwrites2; [|exact H]; intros st0; reflexivity]).
Qed.

(** X8. A page opened on a room with a token keeps showing the loading
    page until both of its requests have settled, in whichever order and
    with whatever outcome; after the second, loading has ended and no
    request is in flight. *)
Theorem loading_until_both_settle r (storage : gmap string string)
    (o1 : Fetched (option RoomInfo)) (o2 : Fetched MessagesData) :
  JS.truthy r = true →
  JS.truthyOpt (storage !! "token") = true →
  let p := mount (Some r) storage in
  (∀ socket, render (component p) socket = LoadingPageView)
  ∧ (∀ socket, render (component (step (RoomInfoSettles r o1) p)) socket = LoadingPageView)
  ∧ (∀ socket, render (component (step (MessagesSettle r o2) p)) socket = LoadingPageView)
  ∧ (∀ es, es = [RoomInfoSettles r o1; MessagesSettle r o2]
           ∨ es = [MessagesSettle r o2; RoomInfoSettles r o1] →
       isLoading (component (run es p)) = false ∧ loads (run es p) = []).
Proof.
  intros Hr Htoken p. subst p. rewrite (mount_starts_load r storage Hr Htoken).
  pose proof (fetchRoomInfo_frame o1) as F1.
  pose proof (fetchMessages_frame o2) as F2.
  unfold untouchedByFetch in F1, F2.
  assert (Hload : ∀ st socket,
            roomId st = Some r → isLoading st = true →
            render st socket = LoadingPageView).
  { intros st socket Hroom Hl. unfold render. rewrite Hroom, Hl. simpl. by rewrite Hr. }
  split; [intros socket; by apply Hload|].
  split.
  { intros socket. simpl. rewrite bool_decide_eq_true_2 by done. simpl.
    destruct (F1 (initial (Some r) storage)) as ((Hroom & _ & Hl & _) & _).
    apply Hload; [by rewrite Hroom|by rewrite Hl]. }
  split.
  { intros socket. simpl. rewrite bool_decide_eq_true_2 by done. simpl.
    destruct (F2 (initial (Some r) storage)) as ((Hroom & _ & Hl & _) & _).
    apply Hload; [by rewrite Hroom|by rewrite Hl]. }
  intros es [-> | ->]; simpl; rewrite !bool_decide_eq_true_2 by done; simpl;
    rewrite !bool_decide_eq_true_2 by done; simpl; done.
Qed.

(** X9. A page opened on a room without a usable token (absent, or the
    empty string) sends no request: it pushes the login route, stays on
    the loading page, and no settlement can change it. *)
Theorem mount_without_token r (storage : gmap string string) :
  JS.truthy r = true →
  JS.truthyOpt (storage !! "token") = false →
  let p := mount (Some r) storage in
  loads p = []
  ∧ pushed (component p) = ["/auth/login"]
  ∧ (∀ socket, render (component p) socket = LoadingPageView)
  ∧ (∀ room o, step (RoomInfoSettles room o) p = p)
  ∧ (∀ room o, step (MessagesSettle room o) p = p).
Proof.
  intros Hr Htoken p. subst p. unfold mount, roomEffect, getItem. simpl.
  rewrite Hr, Htoken. simpl. repeat split.
  intros socket. unfold render. simpl. by rewrite Hr.
Qed.

(** X10. A page opened without a room id (absent, or the empty string)
    sends no request and navigates nowhere; it shows the "Invalid Room"
    error page, which offers the way back but no retry. *)
Theorem mount_invalid_room (param : option string) (storage : gmap string string) :
  JS.truthyOpt param = false →
  let p := mount param storage in
  loads p = []
  ∧ pushed (component p) = []
  ∧ localStorage (component p) = storage
  ∧ ∀ socket, ∃ props,
      render (component p) socket = ErrorPageView props
      ∧ ErrorUI.heading props = "Invalid Room"
      ∧ ErrorUI.retryButton props = None
      ∧ ErrorUI.goHomeButton props = Some ErrorUI.HandleGoBack.
Proof.
  intros Hparam p. subst p. unfold mount, roomEffect. simpl. rewrite Hparam. simpl.
  repeat split. intros socket. unfold render. simpl. rewrite Hparam. simpl.
  eexists. split; [reflexivity|]. done.
Qed.

#[local] Arguments fetchRoomInfo : simpl never.
#[local] Arguments fetchMessages : simpl never.

(** X11. Retrying from a page with nothing in flight starts one load for
    the current room; when both of its requests then succeed, in either
    order, the error is cleared and the chat view shows the fetched room
    and history. *)
Theorem retry_then_success r (info : option RoomInfo) (data : list Message)
    (res1 : Response (option RoomInfo)) (res2 : Response MessagesData) p :
  roomId (component p) = Some r →
  JS.truthy r = true →
  loads p = [] →
  ok res1 = true → json res1 = inr info →
  ok res2 = true → json res2 = inr (IsArray data) →
  ∀ es,
    es = [Retry; RoomInfoSettles r (Resolves res1); MessagesSettle r (Resolves res2)]
    ∨ es = [Retry; MessagesSettle r (Resolves res2); RoomInfoSettles r (Resolves res1)] →
    let st := component (run es p) in
    loads (run es p) = []
    ∧ error st = "" ∧ roomInfo st = info ∧ messages st = data
    ∧ ∀ socket, ∃ c,
        render st socket = ChatRoomView c
        ∧ rendered (render st socket) = data ++ socket.
Proof.
  intros Hroom Hr Hloads Hok1 Hjson1 Hok2 Hjson2 es Hes st.
  assert (Hshape : run es p
            = {| component :=
                   setIsLoading false
                     (setIsLoadingMessages false
                        (setMessages data
                           (setRoomInfo info
                              (setError ""
                                 (setIsLoadingMessages true
                                    (setIsLoading true (component p)))))));
                 loads := [] |}
          ∨ run es p
            = {| component :=
                   setIsLoading false
                     (setRoomInfo info
                        (setIsLoadingMessages false
                           (setMessages data
                              (setError ""
                                 (setIsLoadingMessages true
                                    (setIsLoading true (component p)))))));
                 loads := [] |}).
  { destruct Hes as [-> | ->]; [left|right]; simpl; unfold handleRetry, loadRoomData;
      simpl; rewrite Hloads, Hroom; simpl;
      rewrite !bool_decide_eq_true_2 by done; simpl.
    - rewrite (fetchRoomInfo_ok res1 info) by done.
      rewrite bool_decide_eq_true_2 by done. simpl.
      by rewrite (fetchMessages_ok res2 data) by done.
    - rewrite (fetchMessages_ok res2 data) by done.
      rewrite bool_decide_eq_true_2 by done. simpl.
      by rewrite (fetchRoomInfo_ok res1 info) by done. }
  subst st.
  destruct Hshape as [-> | ->]; simpl; (repeat split; try done);
    intros socket; (eexists; split;
      [unfold render; simpl; rewrite Hroom; simpl; rewrite Hr; simpl; reflexivity|]);
    apply rendered_loaded; simpl; try done; by rewrite Hroom.
Qed.

(** X12. When the socket hook throws an [Error] during a send, the handler
    stores its message in [error], keeps the typed text, ends the sending
    state and raises no notification; on a loaded page the chat view then
    gives way to the error page with that message. *)
Theorem send_failure_replaces_view {Socket : Type}
    (socketSendMessage : string → Socket → option JS.Thrown * Socket)
    (text : string) (sk sk' : Socket) st :
  JS.trim (message st) ≠ "" →
  JS.truthyOpt (roomId st) = true →
  isSendingMessage st = false →
  socketSendMessage (message st) sk = (Some (JS.ErrorObject text), sk') →
  let st' := (handleSend socketSendMessage st sk).1 in
  error st' = text
  ∧ message st' = message st
  ∧ isSendingMessage st' = false
  ∧ toastQueue st' = toastQueue st
  ∧ messages st' = messages st
  ∧ (isLoading st = false → text ≠ "" →
     ∀ socket, ∃ props,
       render st' socket = ErrorPageView props
       ∧ ErrorUI.description props = Some text
       ∧ ErrorUI.retryButton props = Some ErrorUI.HandleRetry).
Proof.
  intros Hblank Hroom Hsending Hthrows st'. subst st'.
  unfold handleSend, JS.truthy. rewrite Hroom, Hsending, Hthrows.
  destruct (String.eqb_spec (JS.trim (message st)) ""); [done|]. simpl.
  repeat split. intros Hload Htext socket. eexists. unfold render. simpl.
  rewrite Hroom, Hload. simpl. unfold JS.truthy.
  destruct (String.eqb_spec text ""); [done|]. simpl.
  split; [reflexivity|]. done.
Qed.

(** X13. The send button and the handler agree: whenever the chat view is
    shown, a disabled button means [handleSend] would do nothing, and an
    enabled one means it hands the text, exactly as typed, to the socket
    hook and leaves the sending state ended. *)
Theorem send_button_matches_guard {Socket : Type}
    (socketSendMessage : string → Socket → option JS.Thrown * Socket)
    (sk : Socket) (c : ChatView) st socket :
  render st socket = ChatRoomView c →
  (sendDisabled c = true → handleSend socketSendMessage st sk = (st, sk))
  ∧ (sendDisabled c = false →
     (handleSend socketSendMessage st sk).2 = (socketSendMessage (message st) sk).2
     ∧ isSendingMessage (handleSend socketSendMessage st sk).1 = false
     ∧ (fst (socketSendMessage (message st) sk) = None →
        message (handleSend socketSendMessage st sk).1 = ""
        ∧ error (handleSend socketSendMessage st sk).1 = error st)).
Proof.
  unfold render. destruct (JS.truthyOpt (roomId st)) eqn:Hroom; simpl; [|discriminate].
  destruct (isLoading st); [discriminate|].
  destruct (JS.truthy (error st)); [discriminate|].
  intros [= <-]. simpl. unfold handleSend. rewrite Hroom. simpl.
  destruct (isSendingMessage st), (JS.truthy (JS.trim (message st))); simpl;
    (split; [done|]); try discriminate.
  intros _. by destruct (socketSendMessage (message st) sk) as [[err|] sk'].
Qed.

End ChatRuns.

(** * Changing rooms *)

Section RoomSwitch.

Import Chat.
Implicit Types (st : State) (p : Page) (t : Tab) (ls : list Load).









(** The continuation itself would write: delivered to a page with that
    request in flight, a successful history response becomes its
    [messages], whatever room the page shows. *)
Lemma history_response_is_stored (room : string) (res : Response MessagesData)
    (data : list Message) p :
  messagesInFlight room p = true →
  ok res = true → json res = inr (IsArray data) →
  messages (component (step (MessagesSettle room (Resolves res)) p)) = data.
Proof.
  intros Hflight Hok Hjson. rewrite step_MessagesSettle_component.
  destruct (settleMessages_in_flight room (Resolves res) (loads p) (component p) Hflight)
    as [-> | ->];
    [|change (messages (setIsLoading false (fetchMessages (Resolves res) (component p))))
        with (messages (fetchMessages (Resolves res) (component p)))];
    rewrite fetchMessages_messages, Hok, Hjson; done.
Qed.

End RoomSwitch.


(** * Whitespace-only input *)

Section TextFacts.

Import Regex.

Lemma allChars_rev_app (cls : ascii → bool) (s acc : string) :
  allChars cls (String.rev_app s acc) = allChars cls s && allChars cls acc.
Proof.
  revert acc. induction s as [|c s IH]; intros acc; simpl; [done|].
  rewrite IH. simpl. destruct (cls c), (allChars cls s); simpl; try done.
Qed.

Lemma rev_app_empty (s acc : string) :
  String.rev_app s acc = "" → s = "" ∧ acc = "".
Proof.
  revert acc. induction s as [|c s IH]; intros acc; simpl; [done|].
  intros H. by destruct (IH _ H) as [_ ?].
Qed.

Lemma trimStart_cases (s : string) :
  (JS.trimStart s = "" ∧ allChars JS.isWhiteSpace s = true)
  ∨ (∃ c rest, JS.trimStart s = String c rest
               ∧ JS.isWhiteSpace c = false
               ∧ allChars JS.isWhiteSpace s = false).
Proof.
  induction s as [|c s IH]; simpl; [by left|].
  destruct (JS.isWhiteSpace c) eqn:Hc; simpl; [exact IH|].
  right. by exists c, s.
Qed.

(** [s.trim()] is empty exactly when every character of [s] is white
    space. *)
Lemma trim_empty_iff (s : string) :
  JS.trim s = "" ↔ allChars JS.isWhiteSpace s = true.
Proof.
  unfold JS.trim, JS.trimEnd, String.rev.
  destruct (trimStart_cases s) as [[-> Hall] | (c & rest & -> & Hc & Hall)].
  - by rewrite Hall.
  - rewrite Hall. split; [|discriminate]. intros H. exfalso.
    apply rev_app_empty in H as [H _].
    destruct (trimStart_cases (String.rev_app (String c rest) "")) as [[_ Hws] | (c' & r' & H' & _)].
    + rewrite allChars_rev_app in Hws. simpl in Hws. by rewrite Hc in Hws.
    + rewrite H in H'. discriminate.
Qed.

Lemma blank_iff (s : string) :
  Forms.blank s = true ↔ allChars JS.isWhiteSpace s = true.
Proof.
  unfold Forms.blank, JS.truthy. rewrite negb_involutive, <- trim_empty_iff.
  apply String.eqb_eq.
Qed.

(** X14. While the chat view is shown, its send button is disabled exactly
    when a send is under way or the input consists of white space only
    (the empty input included). *)
Theorem send_disabled_iff (c : Chat.ChatView) (st : Chat.State)
    (socket : list Chat.Message) :
  Chat.render st socket = Chat.ChatRoomView c →
  Chat.sendDisabled c = true
  ↔ Chat.isSendingMessage st = true
    ∨ allChars JS.isWhiteSpace (Chat.message st) = true.
Proof.
  unfold Chat.render.
  destruct (negb (JS.truthyOpt (Chat.roomId st))); [discriminate|].
  destruct (Chat.isLoading st); [discriminate|].
  destruct (JS.truthy (Chat.error st)); [discriminate|].
  intros [= <-]. simpl. rewrite orb_true_iff.
  change (negb (JS.truthy (JS.trim (Chat.message st))))
    with (Forms.blank (Chat.message st)).
  by rewrite blank_iff.
Qed.

End TextFacts.

(** * Properties of the room-list page *)

Section RoomsFacts.

Import Rooms.
Implicit Types (st : State).

Lemma fetchRooms_frame (outcome : Chat.Fetched (list ChatRoom)) st :
  toastQueue (fetchRooms outcome st) = toastQueue st
  ∧ roomName (fetchRooms outcome st) = roomName st
  ∧ joinRoomId (fetchRooms outcome st) = joinRoomId st
  ∧ isCreatingRoom (fetchRooms outcome st) = isCreatingRoom st
  ∧ isJoiningRoom (fetchRooms outcome st) = isJoiningRoom st.
Proof.
  unfold fetchRooms, fetchRooms_begin, fetchRooms_settle.
  destruct (negb (JS.truthyOpt (getItem "token" st))); [done|].
  destruct outcome as [err|res]; [done|].
  destruct (Chat.status res =? 401); [done|].
  destruct (negb (Chat.ok res)); [done|]. by destruct (Chat.json res).
Qed.

Lemma fetchRooms_isLoading (outcome : Chat.Fetched (list ChatRoom)) st :
  isLoading (fetchRooms outcome st) = false.
Proof.
  unfold fetchRooms, fetchRooms_begin, fetchRooms_settle.
  by destruct (negb (JS.truthyOpt (getItem "token" st))).
Qed.

(** X15. [fetchRooms] ends the loading state on every path and never
    raises a notification. The room list changes only when a readable 2xx
    response arrived, which also clears the error; the stored token
    changes only by being removed, together with a push of the login
    route. *)
Theorem fetchRooms_always_ends_loading (outcome : Chat.Fetched (list ChatRoom)) st :
  let st' := fetchRooms outcome st in
  isLoading st' = false
  ∧ toastQueue st' = toastQueue st
  ∧ (rooms st' ≠ rooms st →
     error st' = "" ∧ localStorage st' = localStorage st ∧ pushed st' = pushed st
     ∧ ∃ res, outcome = Chat.Resolves res ∧ Chat.ok res = true
              ∧ Chat.json res = inr (rooms st'))
  ∧ (localStorage st' ≠ localStorage st →
     localStorage st' = delete "token" (localStorage st)
     ∧ pushed st' = pushed st ++ ["/auth/login"]
     ∧ rooms st' = rooms st ∧ error st' = error st).
Proof.
  intros st'. subst st'.
  unfold fetchRooms, fetchRooms_begin, fetchRooms_settle.
  destruct (negb (JS.truthyOpt (getItem "token" st))); [done|].
  destruct outcome as [err|res]; [done|].
  destruct (Chat.status res =? 401); [done|].
  destruct (negb (Chat.ok res)) eqn:Hok; [done|].
  destruct (Chat.json res) as [err|data] eqn:Hjson; [done|]. simpl.
  repeat split; try done.
  exists res. apply negb_false_iff in Hok. done.
Qed.

(** X16. Every call of [handleCreateRoom] reports with exactly one
    notification, stamped with the clock reading of the report, and never
    touches the blocking [error], the loading state, the token or the
    router. The notification is a success exactly when the name was not
    blank, the response was 2xx with a readable body, and the name of the
    body could be read. The room list gets the body in front, and the name
    input is cleared, exactly when the name was not blank and the response
    was 2xx with a readable body (even if reading its name then throws);
    otherwise list and input are as they were. *)
Theorem create_reports_exactly_once (now : Z) (outcome : Chat.Fetched Body) st :
  let st' := handleCreateRoom now outcome st in
  (∃ t,
     Toast.toasts (toastQueue st') = Toast.toasts (toastQueue st) ++ [t]
     ∧ Toast.id t = JS.toString now
     ∧ (Toast.type t = Toast.success
        ↔ Forms.blank (roomName st) = false
          ∧ ∃ res body created,
              outcome = Chat.Resolves res ∧ Chat.ok res = true
              ∧ Chat.json res = inr body ∧ readName body = inr created))
  ∧ (error st' = error st ∧ isLoading st' = isLoading st
     ∧ joinRoomId st' = joinRoomId st
     ∧ localStorage st' = localStorage st ∧ pushed st' = pushed st)
  ∧ (Forms.blank (roomName st) = false → isCreatingRoom st' = false)
  ∧ (∀ res body,
       Forms.blank (roomName st) = false →
       outcome = Chat.Resolves res → Chat.ok res = true → Chat.json res = inr body →
       rooms st' = asRoom body :: rooms st ∧ roomName st' = "")
  ∧ (Forms.blank (roomName st) = true
     ∨ (∀ res body, outcome = Chat.Resolves res → Chat.json res = inr body →
          Chat.ok res = false) →
     rooms st' = rooms st ∧ roomName st' = roomName st).
Proof.
  intros st'. subst st'. unfold handleCreateRoom, Forms.blank.
  destruct (negb (JS.truthy (JS.trim (roomName st)))) eqn:Hblank;
    [|destruct outcome as [err|res];
      [|destruct (Chat.json res) as [err|body] eqn:Hjson;
        [|destruct (negb (Chat.ok res)) eqn:Hok;
          [apply negb_true_iff in Hok
          |apply negb_false_iff in Hok;
           destruct (readName body) as [err|created] eqn:Hname]]]];
    cbn; (split; [|split; [|split; [|split]]]).
  (* the untouched cells, and the end of the creating state *)
  all: try solve [repeat split; done].
  (* the one notification and its kind *)
  all: try solve
    [eexists; split; [reflexivity|]; split; [reflexivity|]; cbn;
     first
       [split;
        [discriminate
        |intros [Hb (res0 & body0 & nm & Heq & Hok' & Hj & Hn)];
         simplify_eq; congruence]
       |split; [intros _; split; [done|by eexists _, _, _]|done]]].
  (* the room list after a 2xx with a readable body *)
  all: try solve
    [intros res0 body0 Hb Heq Hok' Hj; simplify_eq;
     first [done|congruence|rewrite Hjson in Hj; by simplify_eq]].
  (* the room list in every other case *)
  all: solve
    [intros [Hb|H]; [done|];
     first [done|specialize (H _ _ eq_refl Hjson); congruence]].
Qed.

(** X17. Every call of [handleJoinRoom] reports with exactly one
    notification; it is a success exactly when the id was not blank and
    the join request returned 2xx, and a 409 with a readable body is
    reported as a warning. After a 2xx the id input is cleared, the
    joining and loading states are ended, and the room list and [error]
    are what [fetchRooms] made of them. In every other case the room list,
    [error], the loading state, the id input, the token and the router
    are untouched. *)
Theorem join_reports_exactly_once (now : Z) (outcome : Chat.Fetched Body)
    (refreshed : Chat.Fetched (list ChatRoom)) st :
  let st' := handleJoinRoom now outcome refreshed st in
  (∃ t,
     Toast.toasts (toastQueue st') = Toast.toasts (toastQueue st) ++ [t]
     ∧ Toast.id t = JS.toString now
     ∧ (Toast.type t = Toast.success
        ↔ Forms.blank (joinRoomId st) = false
          ∧ ∃ res, outcome = Chat.Resolves res ∧ Chat.ok res = true)
     ∧ (∀ res body,
          Forms.blank (joinRoomId st) = false →
          outcome = Chat.Resolves res → Chat.status res = 409 →
          Chat.json res = inr body → Toast.type t = Toast.warning))
  ∧ (∀ res,
       Forms.blank (joinRoomId st) = false →
       outcome = Chat.Resolves res → Chat.ok res = true →
       joinRoomId st' = "" ∧ isJoiningRoom st' = false ∧ isLoading st' = false
       ∧ rooms st' = rooms (fetchRooms refreshed (setIsJoiningRoom true st))
       ∧ error st' = error (fetchRooms refreshed (setIsJoiningRoom true st))
       ∧ localStorage st' = localStorage (fetchRooms refreshed (setIsJoiningRoom true st))
       ∧ pushed st' = pushed (fetchRooms refreshed (setIsJoiningRoom true st)))
  ∧ (Forms.blank (joinRoomId st) = true
     ∨ (∀ res, outcome = Chat.Resolves res → Chat.ok res = false) →
     rooms st' = rooms st ∧ error st' = error st
     ∧ isLoading st' = isLoading st ∧ joinRoomId st' = joinRoomId st
     ∧ localStorage st' = localStorage st ∧ pushed st' = pushed st).
Proof.
  intros st'. subst st'. unfold handleJoinRoom, Forms.blank.
  destruct (negb (JS.truthy (JS.trim (joinRoomId st)))) eqn:Hblank; simpl.
  { split; [|split; [by intros|done]].
    eexists. split; [reflexivity|]. split; [done|]. simpl.
    split; [|by intros]. split; [done|]. by intros [? _]. }
  destruct outcome as [err|res]; simpl.
  { split; [|split; [by intros|done]].
    eexists. split; [reflexivity|]. split; [done|]. simpl.
    split; [|by intros]. split; [done|]. by intros [_ (? & ? & _)]. }
  destruct (negb (Chat.ok res)) eqn:Hok; simpl.
  - apply negb_true_iff in Hok.
    assert (Hnot : ¬ (false = false
                      ∧ ∃ res0, Chat.Resolves res = Chat.Resolves res0
                                ∧ Chat.ok res0 = true)).
    { intros [_ (? & [= <-] & ?)]. congruence. }
    assert (Hno : ∀ res0, false = false → Chat.Resolves res = Chat.Resolves res0 →
                    Chat.ok res0 = true → False).
    { intros ? _ [= <-] ?. congruence. }
    destruct (Chat.json res) as [err|body] eqn:Hjson; simpl.
    { split; [|split; [intros res0 H1 H2 H3; destruct (Hno res0 H1 H2 H3)|done]].
      eexists. split; [reflexivity|]. split; [done|]. simpl.
      split; [done|]. intros ? ? _ [= <-] _ ?. congruence. }
    destruct (Chat.status res =? 409) eqn:H409; simpl.
    { split; [|split; [intros res0 H1 H2 H3; destruct (Hno res0 H1 H2 H3)|done]].
      eexists. split; [reflexivity|]. split; [done|]. simpl. by split. }
    apply Z.eqb_neq in H409.
    destruct (Chat.status res =? 404) eqn:H404; simpl.
    { split; [|split; [intros res0 H1 H2 H3; destruct (Hno res0 H1 H2 H3)|done]].
      eexists. split; [reflexivity|]. split; [done|]. simpl.
      split; [done|]. intros ? ? _ [= <-] ?. congruence. }
    split; [|split; [intros res0 H1 H2 H3; destruct (Hno res0 H1 H2 H3)|done]].
    eexists. split; [reflexivity|]. split; [done|]. simpl.
    split; [done|]. intros ? ? _ [= <-] ?. congruence.
  - apply negb_false_iff in Hok.
    destruct (fetchRooms_frame refreshed (setIsJoiningRoom true st)) as (Hq & _).
    split; [|split].
    + eexists. split; [simpl; rewrite Hq; reflexivity|]. split; [done|]. simpl.
      split.
      * split; [|done]. intros _. split; [done|]. by exists res.
      * intros res0 body _ [= <-] H409 _. exfalso.
        unfold Chat.ok in Hok. rewrite H409 in Hok. done.
    + intros res0 _ [= <-] _. repeat split. apply fetchRooms_isLoading.
    + intros [?|H]; [done|]. specialize (H res eq_refl). congruence.
Qed.

End RoomsFacts.

(** * Properties of the form validators *)

Section FormsFacts.

Import Regex Forms.
Implicit Types (s : string) (cls : ascii → bool) (k : string → bool).

Lemma append_nil s : "" +:+ s = s.
Proof. reflexivity. Qed.

Lemma append_cons (c : ascii) s1 s2 : String c s1 +:+ s2 = String c (s1 +:+ s2).
Proof. reflexivity. Qed.

Lemma anyChar_app cls s1 s2 :
  anyChar cls (s1 +:+ s2) = anyChar cls s1 || anyChar cls s2.
Proof.
  induction s1 as [|c s1 IH]; [done|].
  rewrite append_cons. simpl. by rewrite IH, orb_assoc.
Qed.

Lemma allChars_app cls s1 s2 :
  allChars cls (s1 +:+ s2) = allChars cls s1 && allChars cls s2.
Proof.
  induction s1 as [|c s1 IH]; [done|].
  rewrite append_cons. simpl. by rewrite IH, andb_assoc.
Qed.

Lemma length_app_Z s1 s2 : len (s1 +:+ s2) = len s1 + len s2.
Proof.
  unfold len. induction s1 as [|c s1 IH]; [rewrite append_nil; simpl; lia|].
  rewrite append_cons. cbn [String.length]. rewrite !Nat2Z.inj_succ. lia.
Qed.

Lemma anyChar_not_all cls s :
  anyChar (λ c, negb (cls c)) s = true → allChars cls s = false.
Proof.
  induction s as [|c s IH]; simpl; [done|].
  destruct (cls c); simpl; [exact IH|done].
Qed.

Lemma test_Class cls s : test (Class cls) s = anyChar cls s.
Proof.
  induction s as [|c s IH]; simpl; [done|].
  by rewrite IH, andb_true_r.
Qed.

Lemma many0_split cls k s :
  many0 cls k s = true
  ↔ ∃ a rest, s = a +:+ rest ∧ allChars cls a = true ∧ k rest = true.
Proof.
  split.
  - induction s as [|c s IH]; simpl.
    + intros Hk. by exists "", "".
    + intros [[Hc (a & rest & -> & Ha & Hk)%IH]%andb_true_iff | Hk]%orb_true_iff.
      * exists (String c a), rest. simpl. by rewrite Hc, Ha.
      * by exists "", (String c s).
  - intros (a & rest & -> & Ha & Hk). induction a as [|c a IH]; simpl in *.
    + destruct rest; simpl; [done|]. by rewrite Hk, orb_true_r.
    + apply andb_true_iff in Ha as [Hc Ha]. by rewrite Hc, IH.
Qed.

Lemma many1_split cls k s :
  matchK (Many1 cls) k s = true
  ↔ ∃ a rest, s = a +:+ rest ∧ a ≠ "" ∧ allChars cls a = true ∧ k rest = true.
Proof.
  destruct s as [|c s]; simpl.
  - split; [done|]. intros (a & rest & Hs & Ha & _). by destruct a.
  - rewrite andb_true_iff, many0_split. split.
    + intros (Hc & a & rest & -> & Ha & Hk). exists (String c a), rest.
      simpl. by rewrite Hc, Ha.
    + intros (a & rest & Hs & Hne & Ha & Hk). destruct a as [|c' a]; [done|].
      simpl in *. injection Hs as -> ->.
      apply andb_true_iff in Ha as [Hc Ha]. split; [done|]. by exists a, rest.
Qed.

Lemma lit_split (x : ascii) k s :
  matchK (Class (lit x)) k s = true ↔ ∃ rest, s = String x rest ∧ k rest = true.
Proof.
  destruct s as [|c s]; simpl.
  - split; [done|]. by intros (rest & ? & _).
  - unfold lit. rewrite andb_true_iff, Ascii.eqb_eq. split.
    + intros [-> Hk]. by exists s.
    + by intros (rest & [= -> ->] & Hk).
Qed.

Lemma test_split (re : Re) s :
  test re s = true ↔ ∃ pre suffix, s = pre +:+ suffix ∧ matchK re (λ _, true) suffix = true.
Proof.
  split.
  - induction s as [|c s IH]; simpl.
    + rewrite orb_false_r. intros H. by exists "", "".
    + intros [H | (pre & suffix & -> & H)%IH]%orb_true_iff.
      * by exists "", (String c s).
      * by exists (String c pre), suffix.
  - intros (pre & suffix & -> & H). induction pre as [|c pre IH]; simpl.
    + destruct suffix; simpl; by rewrite H.
    + by rewrite IH, orb_true_r.
Qed.

(** The e-mail pattern matches exactly the strings that contain three
    non-empty runs free of white space, joined by an at sign and a dot. *)
Lemma emailPattern_shape s :
  test emailPattern s = true
  ↔ ∃ pre a b c post,
      s = pre +:+ a +:+ "@" +:+ b +:+ "." +:+ c +:+ post
      ∧ a ≠ "" ∧ b ≠ "" ∧ c ≠ ""
      ∧ allChars nonSpace a = true
      ∧ allChars nonSpace b = true
      ∧ allChars nonSpace c = true.
Proof.
  rewrite test_split. unfold emailPattern. split.
  - intros (pre & suffix & -> & H). simpl matchK in H.
    change (matchK (Many1 nonSpace)
              (matchK (Class (lit "@"))
                 (matchK (Many1 nonSpace)
                    (matchK (Class (lit "."))
                       (matchK (Many1 nonSpace) (λ _, true))))) suffix = true) in H.
    apply many1_split in H as (a & r1 & -> & Ha & Hca & H).
    apply lit_split in H as (r2 & -> & H).
    apply many1_split in H as (b & r3 & -> & Hb & Hcb & H).
    apply lit_split in H as (r4 & -> & H).
    apply many1_split in H as (c & post & -> & Hc & Hcc & _).
    by exists pre, a, b, c, post.
  - intros (pre & a & b & c & post & -> & Ha & Hb & Hc & Hca & Hcb & Hcc).
    exists pre, (a +:+ "@" +:+ b +:+ "." +:+ c +:+ post). split; [done|].
    change (matchK (Many1 nonSpace)
              (matchK (Class (lit "@"))
                 (matchK (Many1 nonSpace)
                    (matchK (Class (lit "."))
                       (matchK (Many1 nonSpace) (λ _, true)))))
              (a +:+ "@" +:+ b +:+ "." +:+ c +:+ post) = true).
    apply many1_split. exists a, ("@" +:+ b +:+ "." +:+ c +:+ post).
    repeat (split; [done|]).
    apply lit_split. exists (b +:+ "." +:+ c +:+ post). split; [done|].
    apply many1_split. exists b, ("." +:+ c +:+ post). repeat (split; [done|]).
    apply lit_split. exists (c +:+ post). split; [done|].
    apply many1_split. by exists c, post.
Qed.

Lemma many0_end cls s :
  many0 cls (matchK EndOfInput (λ _, true)) s = allChars cls s.
Proof.
  induction s as [|c s IH]; [done|].
  cbn [many0 allChars]. rewrite IH. cbn [matchK]. by rewrite orb_false_r.
Qed.

Lemma username_pattern s :
  testAnchored usernamePattern s = true ↔ s ≠ "" ∧ allChars word s = true.
Proof.
  unfold testAnchored, usernamePattern. destruct s as [|c s].
  - simpl. split; [done|]. by intros [? _].
  - change (matchK (Seq (Many1 word) EndOfInput) (λ _, true) (String c s))
      with (word c && many0 word (matchK EndOfInput (λ _, true)) s).
    rewrite many0_end. simpl. split; [done|]. by intros [_ ?].
Qed.

Lemma word_not_space (c : ascii) : word c = true → JS.isWhiteSpace c = false.
Proof.
  destruct c as [[|] [|] [|] [|] [|] [|] [|] [|]]; vm_compute; congruence.
Qed.

Lemma lower_not_space (c : ascii) : lower c = true → JS.isWhiteSpace c = false.
Proof. intros H. apply word_not_space. unfold word. by rewrite H. Qed.

Lemma not_blank_of_char cls s :
  (∀ c, cls c = true → JS.isWhiteSpace c = false) →
  anyChar cls s = true → blank s = false.
Proof.
  intros Hcls Hany. apply not_true_iff_false. rewrite blank_iff.
  apply not_true_iff_false. apply anyChar_not_all.
  induction s as [|c s IH]; simpl in *; [done|].
  destruct (cls c) eqn:Hc; simpl in *.
  - by rewrite (Hcls c Hc).
  - rewrite IH by done. apply orb_true_r.
Qed.

Lemma lookahead_finds cls s :
  many0 dot (matchK (Class cls) (λ _, true)) s = true → anyChar cls s = true.
Proof.
  induction s as [|c s IH]; [done|]. cbn [many0 anyChar].
  intros [[_ H%IH]%andb_true_iff | H]%orb_true_iff.
  - by rewrite H, orb_true_r.
  - cbn [matchK] in H. rewrite andb_true_r in H. by rewrite H.
Qed.

Lemma lookahead_on_one_line cls s :
  allChars dot s = true → anyChar cls s = true →
  many0 dot (matchK (Class cls) (λ _, true)) s = true.
Proof.
  induction s as [|c s IH]; [done|]. cbn [many0 anyChar allChars].
  intros [Hc Hs]%andb_true_iff [H | H]%orb_true_iff.
  - cbn [matchK]. by rewrite H, orb_true_r.
  - by rewrite Hc, IH.
Qed.

Lemma passwordPattern_at s :
  matchK passwordPattern (λ _, true) s
  = many0 dot (matchK (Class lower) (λ _, true)) s
    && (many0 dot (matchK (Class upper) (λ _, true)) s
        && many0 dot (matchK (Class digit) (λ _, true)) s).
Proof. unfold passwordPattern. simpl. by rewrite !andb_true_r. Qed.

Lemma passwordPattern_needs s :
  test passwordPattern s = true →
  anyChar lower s = true ∧ anyChar upper s = true ∧ anyChar digit s = true.
Proof.
  induction s as [|c s IH].
  - change (test passwordPattern "")
      with (matchK passwordPattern (λ _, true) "" || false).
    rewrite passwordPattern_at. done.
  - change (test passwordPattern (String c s))
      with (matchK passwordPattern (λ _, true) (String c s) || test passwordPattern s).
    rewrite passwordPattern_at.
    intros [H | (Hl & Hu & Hd)%IH]%orb_true_iff.
    + apply andb_true_iff in H as [Hl [Hu Hd]%andb_true_iff].
      by rewrite !lookahead_finds.
    + simpl. by rewrite Hl, Hu, Hd, !orb_true_r.
Qed.

Lemma passwordPattern_one_line s :
  allChars dot s = true →
  anyChar lower s = true → anyChar upper s = true → anyChar digit s = true →
  test passwordPattern s = true.
Proof.
  intros Hline Hl Hu Hd. apply test_split. exists "", s. split; [done|].
  rewrite passwordPattern_at. by rewrite !lookahead_on_one_line.
Qed.

Lemma email_not_blank s : test emailPattern s = true → blank s = false.
Proof.
  intros (pre & a & b & c & post & -> & Ha & _ & _ & Hca & _)%emailPattern_shape.
  apply not_true_iff_false. rewrite blank_iff.
  rewrite !allChars_app. destruct a as [|x a]; [done|]. simpl in *.
  apply andb_true_iff in Hca as [Hx _]. unfold nonSpace in Hx.
  apply negb_true_iff in Hx. rewrite Hx. simpl. by rewrite andb_false_r.
Qed.

Lemma password_not_blank s : test passwordPattern s = true → blank s = false.
Proof.
  intros (Hl & _)%passwordPattern_needs.
  by apply (not_blank_of_char lower); [apply lower_not_space|].
Qed.

(** X18. The e-mail field of the registration form is free of error
    exactly when the value contains, somewhere, three non-empty runs free
    of white space, the first two joined by an at sign and the last two by
    a dot; the login form applies the same rule. *)
Theorem email_rule (e u p c : string) :
  (email (validateForm e u p c).1 = None
   ↔ ∃ pre x y z post,
       e = pre +:+ x +:+ "@" +:+ y +:+ "." +:+ z +:+ post
       ∧ x ≠ "" ∧ y ≠ "" ∧ z ≠ ""
       ∧ allChars nonSpace x = true
       ∧ allChars nonSpace y = true
       ∧ allChars nonSpace z = true)
  ∧ (loginValidateForm e p).1.1 = email (validateForm e u p c).1.
Proof.
  split; [|done]. rewrite <- emailPattern_shape.
  unfold validateForm. cbv zeta. cbn [fst email].
  destruct (test emailPattern e) eqn:He.
  - rewrite (email_not_blank e He). done.
  - destruct (blank e); done.
Qed.

(** X19. The password field of the registration form is free of error
    only for a value of at least 6 characters that has a lowercase letter,
    an uppercase letter and a digit; for a value without line breaks,
    these conditions are also enough. *)
Theorem password_rule (e u p c : string) :
  (password (validateForm e u p c).1 = None →
     6 ≤ len p
     ∧ anyChar lower p = true ∧ anyChar upper p = true ∧ anyChar digit p = true)
  ∧ (allChars dot p = true → 6 ≤ len p →
     anyChar lower p = true → anyChar upper p = true → anyChar digit p = true →
     password (validateForm e u p c).1 = None).
Proof.
  unfold validateForm. cbv zeta. cbn [fst password]. split.
  - destruct (blank p); [done|]. destruct (len p <? 6) eqn:H6; [done|].
    destruct (test passwordPattern p) eqn:Hp; [|done]. intros _.
    apply Z.ltb_ge in H6. split; [done|]. by apply passwordPattern_needs.
  - intros Hline H6 Hl Hu Hd.
    assert (Hp : test passwordPattern p = true) by (by apply passwordPattern_one_line).
    rewrite (password_not_blank p Hp), Hp.
    by replace (len p <? 6) with false by (symmetry; apply Z.ltb_ge; lia).
Qed.

Lemma keyCount_zero (errors : FieldErrors) :
  (keyCount errors =? 0) = true
  ↔ email errors = None ∧ username errors = None
    ∧ password errors = None ∧ confirmPassword errors = None.
Proof.
  unfold keyCount. rewrite Z.eqb_eq. destruct errors as [[?|] [?|] [?|] [?|]]; simpl;
    split; try done; try lia; by intros (? & ? & ? & ?).
Qed.

(** X20. The registration form is accepted exactly when the e-mail matches
    its pattern, the username has 3 to 20 characters (20 included), all of
    them letters, digits or underscores, the password has at least 6
    characters and matches its pattern, and the confirmation equals the
    password. The separate "required" checks reject nothing more. *)
Theorem register_accepts_iff (e u p c : string) :
  (validateForm e u p c).2 = true
  ↔ test emailPattern e = true
    ∧ (3 ≤ len u ≤ 20 ∧ allChars word u = true)
    ∧ (6 ≤ len p ∧ test passwordPattern p = true)
    ∧ c = p.
Proof.
  unfold validateForm. cbv zeta. cbn [snd]. rewrite keyCount_zero. cbn [email username password confirmPassword].
  split.
  - intros (He & Hu & Hp & Hc).
    destruct (blank e); [done|]. destruct (test emailPattern e); [|done].
    destruct (blank u); [done|]. destruct (len u <? 3) eqn:Hu3; [done|].
    destruct (20 <? len u) eqn:Hu20; [done|].
    destruct (testAnchored usernamePattern u) eqn:Hupat; [|done].
    destruct (blank p); [done|]. destruct (len p <? 6) eqn:Hp6; [done|].
    destruct (test passwordPattern p); [|done].
    destruct (blank c); [done|].
    destruct (String.eqb_spec p c); [|done].
    apply username_pattern in Hupat as [_ Hword].
    apply Z.ltb_ge in Hu3, Hu20, Hp6. done.
  - intros (He & ((Hu3 & Hu20) & Hword) & (Hp6 & Hp) & ->).
    assert (Hu : u ≠ "").
    { intros ->. unfold len in Hu3. simpl in Hu3. lia. }
    assert (Hbe : blank e = false) by (by apply email_not_blank).
    assert (Hbu : blank u = false).
    { destruct u as [|x u]; [done|]. simpl in Hword.
      apply andb_true_iff in Hword as [Hx _].
      apply (not_blank_of_char word); [apply word_not_space|].
      simpl. by rewrite Hx. }
    assert (Hbp : blank p = false) by (by apply password_not_blank).
    rewrite Hbe, He, Hbu, Hbp, Hp. simpl.
    replace (len u <? 3) with false by (symmetry; apply Z.ltb_ge; lia).
    replace (20 <? len u) with false by (symmetry; apply Z.ltb_ge; lia).
    replace (len p <? 6) with false by (symmetry; apply Z.ltb_ge; lia).
    replace (testAnchored usernamePattern u) with true
      by (symmetry; by apply username_pattern).
    by rewrite String.eqb_refl.
Qed.

Lemma strength_count (b1 b2 b3 b4 b5 : bool) :
  fold_left (λ acc (check : bool), if check then acc + 1 else acc)
    [b1; b2; b3; b4; b5] 0
  = Z.b2z b1 + Z.b2z b2 + Z.b2z b3 + Z.b2z b4 + Z.b2z b5.
Proof. by destruct b1, b2, b3, b4, b5. Qed.

Lemma strength_value s :
  s ≠ "" →
  strength (getPasswordStrength s)
  = Z.b2z (6 <=? len s) + Z.b2z (anyChar lower s) + Z.b2z (anyChar upper s)
    + Z.b2z (anyChar digit s) + Z.b2z (anyChar special s).
Proof.
  intros Hs. unfold getPasswordStrength, JS.truthy.
  destruct (String.eqb_spec s "") as [|_]; [done|]. simpl negb. cbv iota.
  unfold checks. rewrite strength_count, !test_Class.
  set (total := Z.b2z _ + _ + _ + _ + _).
  by destruct (total <? 2), (total <? 4).
Qed.

Lemma strength_label s :
  s ≠ "" → 4 ≤ strength (getPasswordStrength s) →
  label (getPasswordStrength s) = "Strong".
Proof.
  intros Hs. unfold getPasswordStrength, JS.truthy.
  destruct (String.eqb_spec s "") as [|_]; [done|]. simpl negb. cbv iota.
  set (total := fold_left _ _ _).
  destruct (total <? 2) eqn:H2; simpl; [apply Z.ltb_lt in H2; lia|].
  destruct (total <? 4) eqn:H4; simpl; [apply Z.ltb_lt in H4; lia|done].
Qed.

(** X21. A password that the registration form accepts is always rated
    "Strong" by the strength meter, with a strength of 4 or 5. *)
Theorem accepted_password_is_strong (e u p c : string) :
  password (validateForm e u p c).1 = None →
  label (getPasswordStrength p) = "Strong"
  ∧ 4 ≤ strength (getPasswordStrength p) ≤ 5.
Proof.
  unfold validateForm. cbv zeta. cbn [fst password].
  destruct (blank p) eqn:Hb; [done|].
  destruct (len p <? 6) eqn:H6; [done|].
  destruct (test passwordPattern p) eqn:Hp; [|done]. intros _.
  apply passwordPattern_needs in Hp as (Hl & Hu & Hd).
  assert (Hne : p ≠ "") by (intros ->; done).
  assert (Hval := strength_value p Hne).
  rewrite Hl, Hu, Hd in Hval.
  replace (6 <=? len p) with true in Hval
    by (symmetry; apply Z.leb_le; apply Z.ltb_ge in H6; lia).
  simpl in Hval.
  assert (4 ≤ strength (getPasswordStrength p) ≤ 5)
    by (rewrite Hval; destruct (anyChar special p); simpl; lia).
  split; [apply strength_label; [done|lia]|done].
Qed.

(** X22. Typing more never lowers the strength: the strength of a password
    is at most that of any password it is a prefix of, and it always lies
    between 0 and 5. *)
Theorem strength_grows_with_input (p more : string) :
  0 ≤ strength (getPasswordStrength p)
  ∧ strength (getPasswordStrength p) ≤ strength (getPasswordStrength (p +:+ more))
  ∧ strength (getPasswordStrength (p +:+ more)) ≤ 5.
Proof.
  assert (Hrange : ∀ s, 0 ≤ strength (getPasswordStrength s) ≤ 5).
  { intros s. destruct s as [|x s]; [done|].
    rewrite strength_value by done.
    destruct (6 <=? _), (anyChar lower _), (anyChar upper _), (anyChar digit _),
      (anyChar special _); simpl; lia. }
  split; [apply Hrange|]. split; [|apply Hrange].
  destruct p as [|x p]; [apply Hrange|].
  rewrite !strength_value by done.
  change (String x p +:+ more) with (String x (p +:+ more)).
  assert (Hb : ∀ b1 b2 : bool, (b1 = true → b2 = true) → Z.b2z b1 ≤ Z.b2z b2)
    by (intros [] [] H; simpl; try lia; by specialize (H eq_refl)).
  assert (Hany : ∀ cls, Z.b2z (anyChar cls (String x p))
                        ≤ Z.b2z (anyChar cls (String x (p +:+ more)))).
  { intros cls. apply Hb. simpl. rewrite anyChar_app.
    intros [->| ->]%orb_true_iff; [done|]. by rewrite !orb_true_r. }
  assert (Hlen : Z.b2z (6 <=? len (String x p))
                 ≤ Z.b2z (6 <=? len (String x (p +:+ more)))).
  { apply Hb. rewrite !Z.leb_le.
    change (String x (p +:+ more)) with (String x p +:+ more).
    rewrite length_app_Z. unfold len. lia. }
  pose proof (Hany lower). pose proof (Hany upper).
  pose proof (Hany digit). pose proof (Hany special). lia.
Qed.

(** X23. Credentials that the registration form accepts pass the login
    form's validation as well. *)
Theorem registered_credentials_pass_login (e u p c : string) :
  (validateForm e u p c).2 = true →
  loginValidateForm e p = (None, None, true).
Proof.
  unfold validateForm, loginValidateForm. cbv zeta. cbn [snd].
  rewrite keyCount_zero. cbn [email username password confirmPassword].
  intros (He & _ & Hp & _).
  destruct (blank e); [done|]. destruct (test emailPattern e); [|done].
  destruct (blank p); [done|]. destruct (len p <? 6); [done|]. done.
Qed.

End FormsFacts.

(** * The further properties at sample inputs *)

Section MoreInstances.

Import Scenario Samples.


(** The same scene, computed: room B keeps its one message, the unmounted
    page of room A received the two of the late response. *)
Example late_history_scene :
  Chat.rendered (Chat.render (Chat.component (Chat.mounted switched)) []) = [mB]
  ∧ (Chat.messagesInFlight "A" <$> Chat.unmounted switched !! 0%nat) = Some true
  ∧ Chat.rendered
      (Chat.render
         (Chat.component
            (Chat.mounted
               (Chat.tabStep
                  (Chat.OnUnmounted 0 (Chat.MessagesSettle "A" (okMessages [m1; m2])))
                  switched))) []) = [mB]
  ∧ ((λ old, Chat.messages (Chat.component old)) <$>
       Chat.unmounted
         (Chat.tabStep
            (Chat.OnUnmounted 0 (Chat.MessagesSettle "A" (okMessages [m1; m2])))
            switched) !! 0%nat) = Some [m1; m2].
Proof. vm_compute. done. Qed.

(** A late 401 of the unmounted page still acts on the browser: the token
    is gone and the router was sent to the login page, while the page of
    room B keeps its messages. *)
Example late_unauthorized_scene :
  let after :=
    Chat.component
      (Chat.mounted
         (Chat.tabStep (Chat.OnUnmounted 0 (Chat.MessagesSettle "A" (statusOnly 401)))
            switched)) in
  Chat.getItem "token" after = None
  ∧ Chat.pushed after = ["/auth/login"]
  ∧ Chat.messages after = [mB].
Proof. vm_compute. done. Qed.

(** Two notifications created 1200 ms apart carry different ids. *)
Lemma distinct_clock_readings_distinct_ids_witness :
  NoDup (Toast.ids (Toast.run twoAdds Toast.empty)).
Proof.
  apply (distinct_clock_readings_distinct_ids twoAdds).
  vm_compute. apply (bool_decide_unpack _). exact I.
Defined.

(** The first notification survives the creation and the dismissal of a
    second one. *)
Lemma entry_stays_until_removed_witness :
  Toast.withId copied (JS.toString created)
  ∈ Toast.toasts
      (Toast.run [Toast.Add (created + 1200) copyFailed;
                  Toast.Remove (JS.toString (created + 1200))]
         (Toast.addToast created copied Toast.empty)).
Proof.
  apply (entry_stays_until_removed
           (Toast.withId copied (JS.toString created))
           [Toast.Add (created + 1200) copyFailed;
            Toast.Remove (JS.toString (created + 1200))]
           (Toast.addToast created copied Toast.empty)).
  - vm_compute. apply list_elem_of_here.
  - repeat constructor.
Defined.

(** Both timers are still pending after the first notification was
    dismissed. *)
Lemma dismissal_keeps_timers_witness :
  Toast.timers (Toast.run twoAdds Toast.empty)
  = [expiry;
     {| Toast.fireAt := created + 1200 + 5000;
        Toast.target := JS.toString (created + 1200) |}].
Proof.
  apply (dismissal_keeps_timers twoAdds Toast.empty). repeat constructor.
Defined.

(** Room A's history came back 404 first: the page is still loading. *)
Lemma loading_until_both_settle_witness :
  Chat.render
    (Chat.component
       (Chat.step (Chat.MessagesSettle "A" (statusOnly 404))
          (Chat.mount (Some "A") storage))) []
  = Chat.LoadingPageView.
Proof.
  pose proof (loading_until_both_settle "A" storage (okRoom roomA) (statusOnly 404)
                eq_refl eq_refl) as (_ & _ & H & _).
  exact (H []).
Defined.

(** Opened with an empty storage: no request, one push of the login route. *)
Lemma mount_without_token_witness :
  Chat.loads (Chat.mount (Some "A") ∅) = []
  ∧ Chat.pushed (Chat.component (Chat.mount (Some "A") ∅)) = ["/auth/login"].
Proof.
  pose proof (mount_without_token "A" ∅ eq_refl eq_refl) as (H1 & H2 & _).
  split; [exact H1|exact H2].
Defined.

(** Opened without a room id. *)
Lemma mount_invalid_room_witness :
  Chat.loads (Chat.mount None storage) = []
  ∧ Chat.pushed (Chat.component (Chat.mount None storage)) = [].
Proof.
  pose proof (mount_invalid_room None storage eq_refl) as (H1 & H2 & _).
  split; [exact H1|exact H2].
Defined.

(** After the failed load of room A, a retry whose requests succeed. *)
Lemma retry_then_success_witness :
  Chat.rendered
    (Chat.render
       (Chat.component
          (Chat.run [Chat.Retry;
                     Chat.MessagesSettle "A" (Chat.Resolves okMessagesResponse);
                     Chat.RoomInfoSettles "A" (Chat.Resolves okRoomResponse)]
             notFound)) [m3])
  = [m1; m2; m3].
Proof.
  pose proof (retry_then_success "A" (Some roomA) [m1; m2]
                okRoomResponse okMessagesResponse notFound
                eq_refl eq_refl eq_refl eq_refl eq_refl eq_refl eq_refl
                _ (or_intror eq_refl)) as (_ & _ & _ & _ & H).
  destruct (H [m3]) as (c & _ & Hrows). exact Hrows.
Defined.

(** "hello" sent through a socket that is not connected. *)
Lemma send_failure_replaces_view_witness :
  Chat.error (Chat.handleSend brokenSocket helloInput []).1 = "Socket is not connected"
  ∧ Chat.message (Chat.handleSend brokenSocket helloInput []).1 = "hello".
Proof.
  pose proof (send_failure_replaces_view brokenSocket "Socket is not connected"
                [] [] helloInput) as H.
  destruct H as (H1 & H2 & _).
  - vm_compute. discriminate.
  - vm_compute. reflexivity.
  - vm_compute. reflexivity.
  - reflexivity.
  - split; [exact H1|exact H2].
Defined.

(** On the page with the blank input the button is disabled and the
    handler does nothing. *)
Lemma send_button_matches_guard_witness :
  Chat.handleSend recordingSocket blankInput ["earlier"] = (blankInput, ["earlier"]).
Proof.
  assert (Hview : ∃ c, Chat.render blankInput [] = Chat.ChatRoomView c
                       ∧ Chat.sendDisabled c = true)
    by (eexists; split; vm_compute; reflexivity).
  destruct Hview as (c & Hc & Hd).
  exact (proj1 (send_button_matches_guard recordingSocket ["earlier"] c blankInput [] Hc) Hd).
Defined.

(** The disabled button of the page with the blank input. *)
Lemma send_disabled_iff_witness :
  Chat.isSendingMessage blankInput = true
  ∨ Regex.allChars JS.isWhiteSpace (Chat.message blankInput) = true.
Proof.
  assert (Hview : ∃ c, Chat.render blankInput [] = Chat.ChatRoomView c
                       ∧ Chat.sendDisabled c = true)
    by (eexists; split; vm_compute; reflexivity).
  destruct Hview as (c & Hc & Hd).
  exact (proj1 (send_disabled_iff c blankInput [] Hc) Hd).
Defined.

(** A one-line password of six characters with the three kinds. *)
Lemma password_rule_witness :
  Forms.password
    (Forms.validateForm "ann@example.org" "ann_01" "Abcde1" "Abcde1").1 = None.
Proof.
  apply (password_rule "ann@example.org" "ann_01" "Abcde1" "Abcde1");
    vm_compute; (reflexivity || discriminate).
Defined.

(** A password with the three kinds of characters and six characters. *)
Lemma accepted_password_is_strong_witness :
  Forms.label (Forms.getPasswordStrength "Abcde1") = "Strong".
Proof.
  apply (accepted_password_is_strong "ann@example.org" "ann_01" "Abcde1" "Abcde1").
  vm_compute. reflexivity.
Defined.

Lemma registered_credentials_pass_login_witness :
  Forms.loginValidateForm "ann@example.org" "Abcde1" = (None, None, true).
Proof.
  apply (registered_credentials_pass_login "ann@example.org" "ann_01" "Abcde1" "Abcde1").
  vm_compute. reflexivity.
Defined.

(** A room is created: one success notification, the room in front of the
    list, the name input cleared. *)
Example create_success_scene :
  let st' := Rooms.handleCreateRoom created
               (Chat.Resolves {| Chat.status := 201; Chat.json := inr generalBody |})
               typing in
  Toast.type <$> Toast.toasts (Rooms.toastQueue st') = [Toast.success]
  ∧ Rooms.rooms st' = [general] ∧ Rooms.roomName st' = ""
  ∧ Rooms.isCreatingRoom st' = false.
Proof. vm_compute. done. Qed.

(** A 2xx response whose body is [null]: the list and the input have
    changed by the time reading the name throws, and the report is an
    error. *)
Example create_null_body_scene (entry : Rooms.ChatRoom) :
  let st' := Rooms.handleCreateRoom created
               (Chat.Resolves {| Chat.status := 201; Chat.json := inr (nullBody entry) |})
               typing in
  Toast.type <$> Toast.toasts (Rooms.toastQueue st') = [Toast.error]
  ∧ Toast.description <$> Toast.toasts (Rooms.toastQueue st')
    = [Some "Cannot read properties of null (reading 'name')"]
  ∧ Rooms.rooms st' = [entry] ∧ Rooms.roomName st' = ""
  ∧ Rooms.isCreatingRoom st' = false.
Proof. vm_compute. done. Qed.

(** A join that succeeds: the list is the one the refresh brought, the id
    input is cleared, the report is a success. *)
Example join_success_scene :
  let st' := Rooms.handleJoinRoom created
               (Chat.Resolves {| Chat.status := 200; Chat.json := inr generalBody |})
               (Chat.Resolves {| Chat.status := 200; Chat.json := inr [general] |})
               typing in
  Toast.type <$> Toast.toasts (Rooms.toastQueue st') = [Toast.success]
  ∧ Rooms.rooms st' = [general] ∧ Rooms.joinRoomId st' = ""
  ∧ Rooms.isJoiningRoom st' = false ∧ Rooms.isLoading st' = false.
Proof. vm_compute. done. Qed.

(** A join answered 409: a warning, and nothing else changes. *)
Example join_conflict_scene :
  let st' := Rooms.handleJoinRoom created
               (Chat.Resolves {| Chat.status := 409; Chat.json := inr generalBody |})
               (Chat.Resolves {| Chat.status := 200; Chat.json := inr [general] |})
               typing in
  Toast.type <$> Toast.toasts (Rooms.toastQueue st') = [Toast.warning]
  ∧ Rooms.rooms st' = [] ∧ Rooms.joinRoomId st' = "r-7"
  ∧ Rooms.isJoiningRoom st' = false.
Proof. vm_compute. done. Qed.

End MoreInstances.
